(** * LibSvmHikIqrIndex: the IQR ranking index of
      python/smqtk/iqr_index/libsvm_hik.py

    A shallow embedding of the class [LibSvmHikIqrIndex] and the properties
    its specification states about [build_index], [count], [rank] and the
    class-weight computation.

    Modelling conventions.
    - In the embedding of the class, Python floats are read as exact real
      numbers ([R]) and [numpy.exp] as [exp]: what is proved of it is the
      structure of the computation, which values are combined and how.
      No bound or strict order on a computed float is drawn from the real
      numbers: rounding breaks them, and the Platt scaling line is embedded
      a second time in binary64, where such statements are decided.
    - A Python exception is identified by the name of its class.
    - A [dict] is an insertion-ordered association list with unique keys.
    - The instance attributes of [self] live in a record that every method
      threads through a state-and-exception monad; the state survives a
      raised exception, as it does in Python.
    - libSVM ([svm.svm_problem], [svmutil.svm_train]) is an external
      capability, taken to be importable ([is_usable()] holds): the trainer
      is a variable of the development and every call to it is recorded in
      the world, so that "before the trainer is invoked" is a statement
      about that record.
    - [pos], [neg] and [descriptors] are lists. *)

From Stdlib Require Import String List Arith Lia Reals Lra Floats.
Import ListNotations.

Open Scope R_scope.
Open Scope nat_scope.

(** ** Python runtime: exceptions, results, hashable keys, dictionaries *)

Module Py.

Definition exn := string.

Definition ZeroDivisionError : exn := "ZeroDivisionError"%string.
Definition ValueError : exn := "ValueError"%string.
Definition IndexError : exn := "IndexError"%string.
Definition AttributeError : exn := "AttributeError"%string.
Definition ShapeMismatch : exn := "ShapeMismatch"%string.

Inductive result (A : Type) : Type :=
| Ok (a : A)
| Raise (e : exn).

Arguments Ok {A} a.
Arguments Raise {A} e.

(** Keys of a dictionary: a type with decidable equality (the
    [__hash__]/[__eq__] protocol). *)
Class Hashable (K : Type) := key_eq_dec : forall x y : K, {x = y} + {x <> y}.

#[export] Instance Hashable_nat : Hashable nat := Nat.eq_dec.
#[export] Instance Hashable_string : Hashable string := string_dec.
#[export] Instance Hashable_R : Hashable R := Req_dec_T.
#[export] Instance Hashable_list {A} `{Hashable A} : Hashable (list A) :=
  list_eq_dec key_eq_dec.

Section Dict.
Context {K V : Type} `{Hashable K}.

Definition dict := list (K * V).

Definition dict_empty : dict := [].

(** [d[k] = v]: replaces the value of an existing key in place, appends a
    new key at the end. *)
Fixpoint dict_set (d : dict) (k : K) (v : V) : dict :=
  match d with
  | [] => [(k, v)]
  | (k', v') :: r =>
      if key_eq_dec k k' then (k', v) :: r else (k', v') :: dict_set r k v
  end.

Fixpoint dict_get (d : dict) (k : K) : option V :=
  match d with
  | [] => None
  | (k', v') :: r => if key_eq_dec k k' then Some v' else dict_get r k
  end.

Definition dict_keys (d : dict) : list K := map fst d.

Definition dict_len (d : dict) : nat := length d.

(** [dict(pairs)]: the pairs are inserted from left to right. *)
Definition dict_of_pairs (l : list (K * V)) : dict :=
  fold_left (fun d kv => dict_set d (fst kv) (snd kv)) l dict_empty.

End Dict.

Arguments dict K V : clear implicits.

(** [enumerate(l)] *)
Definition enumerate {A} (l : list A) : list (nat * A) :=
  combine (seq 0 (length l)) l.

(** [zip(a, b)] stops at the shorter argument, as [combine] does. *)
Definition zip {A B} (a : list A) (b : list B) : list (A * B) := combine a b.

End Py.

Import Py.

(** ** State-and-exception monad *)

Section Monad.
Variable W : Type.

Definition M (A : Type) : Type := W -> result A * W.

Definition ret {A} (a : A) : M A := fun w => (Ok a, w).

Definition bind {A B} (m : M A) (f : A -> M B) : M B :=
  fun w =>
    match m w with
    | (Ok a, w') => f a w'
    | (Raise e, w') => (Raise e, w')
    end.

Definition get : M W := fun w => (Ok w, w).

Definition modify (f : W -> W) : M unit := fun w => (Ok tt, f w).

(** A pure computation that may raise. *)
Definition lift {A} (r : result A) : M A := fun w => (r, w).

(** [for x in l: body(x)] *)
Fixpoint for_each {A} (l : list A) (body : A -> M unit) : M unit :=
  match l with
  | [] => ret tt
  | x :: r => bind (body x) (fun _ => for_each r body)
  end.

End Monad.

Arguments ret {W A} a.
Arguments bind {W A B} m f.
Arguments get {W}.
Arguments modify {W} f.
Arguments lift {W A} r.
Arguments for_each {W A} l body.

Declare Scope py_scope.
Delimit Scope py_scope with py.
Notation "x <- m ;; k" := (bind m (fun x => k))
  (at level 61, m at next level, right associativity) : py_scope.
Notation "m ;; k" := (bind m (fun _ => k))
  (at level 61, right associativity) : py_scope.
Open Scope py_scope.

(** ** numpy and libSVM values *)

(** A one-dimensional float array, a list of floats, a tuple of floats. *)
Definition vec := list R.

(** A two-dimensional array with its shape: a matrix with no row still has a
    number of columns. *)
Record ndarray2 := {
  nrows : nat;
  ncols : nat;
  cells : list vec
}.

Definition entry (k : ndarray2) (i j : nat) : R :=
  nth j (nth i (cells k) []) 0%R.

(** [sum(l)] over floats. *)
Definition Rsum (l : list R) : R := fold_right Rplus 0%R l.

(** [numpy.dot(w, k)] for a one-dimensional [w] and a two-dimensional [k]:
    the shapes must be aligned, and entry [j] of the product is the sum over
    the rows [i] of [w[i] * k[i, j]]. *)
Definition numpy_dot (w : vec) (k : ndarray2) : result vec :=
  if length w =? nrows k
  then Ok (map (fun j =>
                  Rsum (map (fun i => (nth i w 0 * entry k i j)%R)
                            (seq 0 (nrows k))))
               (seq 0 (ncols k)))
  else Raise ValueError.

(** [numpy.array(rows)] keeps the rows and their order.  The list of rows
    stands for the array: the empty list for [numpy.array([])], which is
    the one-dimensional array of shape (0,) and not a matrix without rows;
    a list of rows of one length for the matrix of these rows.  Rows of
    different lengths, which the data model of the specification excludes,
    are kept as they are. *)
Definition numpy_array (rows : list vec) : list vec := rows.

(** [svm.svm_problem(y, x)] *)
Record svm_problem := {
  prob_y : list Z;
  prob_x : list vec
}.

(** A value of the training-parameter dictionary: [''] for a flag, an
    integer or a float. *)
Inductive param_value :=
| PFlag
| PInt (n : Z)
| PFloat (r : R).

Definition svm_params := dict string param_value.

(** The fields of a trained libSVM model that [rank] reads.  [nSV], [SV],
    [rho], [probA] and [probB] are C arrays read through pointers, hence
    functions of the position; [sv_coef] is what [get_sv_coef()] returns,
    one tuple per support vector. *)
Record svm_model := {
  nr_class : nat;
  nSV : nat -> nat;
  SV : nat -> nat -> R;
  sv_coef : list (list R);
  rho : nat -> R;
  probA : nat -> R;
  probB : nat -> R
}.

(** The values of a list of results, or the first exception in it. *)
Fixpoint all_ok {A : Type} (l : list (result A)) : result (list A) :=
  match l with
  | [] => Ok []
  | Raise e :: _ => Raise e
  | Ok a :: r =>
      match all_ok r with
      | Ok r' => Ok (a :: r')
      | Raise e => Raise e
      end
  end.

(** Modelled from the spec: the kernel function on one pair of vectors.
    Section 4.1: mismatched vector lengths fail with ShapeMismatch.  The
    function applied to vectors of one length is a parameter. *)
Definition kernel_value (dist_func : vec -> vec -> R) (a b : vec)
  : result R :=
  if length a =? length b then Ok (dist_func a b) else Raise ShapeMismatch.

(** ** The class [LibSvmHikIqrIndex] *)

Section LibSvmHikIqrIndex.

(** A descriptor: the token by which it is hashed and compared when it is
    the key of a dictionary, and its vector.  The class [DescriptorElement],
    with its [__hash__] and [__eq__], is not among the sources: the token
    and its equality are parameters of the development.  The specification
    calls the token the identity of the descriptor. *)
Context {uuid_t : Type} `{Hashable uuid_t}.

Record DescriptorElement := {
  uuid : uuid_t;
  vector : vec
}.

(** [svmutil.svm_train], the external trainer: a deterministic function of
    the problem and the parameters, which may raise. *)
Variable svm_train : svm_problem -> svm_params -> result svm_model.

(** [smqtk.utils.distance_functions.histogram_intersection_distance2],
    not among the sources; the specification does not give its formula. *)
Variable histogram_intersection_distance2 : vec -> vec -> R.

(** What [compute_distance_matrix] returns or raises when its second
    argument is [None], the value of [_descr_matrix] before the first
    [build_index].  The function is not among the sources and the
    specification does not say: a parameter. *)
Variable distance_matrix_of_none :
  list vec -> (vec -> vec -> R) -> result ndarray2.

(** Modelled from the spec:
    [smqtk.utils.distance_kernel.compute_distance_matrix] is not among the
    sources.  Section 4.2: [build(setA: M vectors, setB: N vectors)] is the
    M x N matrix whose entry (i, j) is the kernel function applied to
    [setA[i]] and [setB[j]]; section 4.1: the kernel function fails with
    ShapeMismatch on vectors of different lengths. *)
Definition compute_distance_matrix (m1 : list vec) (m2 : option (list vec))
    (dist_func : vec -> vec -> R) : result ndarray2 :=
  match m2 with
  | None => distance_matrix_of_none m1 dist_func
  | Some rows =>
      match all_ok (map (fun a => all_ok (map (kernel_value dist_func a) rows))
                        m1) with
      | Ok cells => Ok {| nrows := length m1;
                          ncols := length rows;
                          cells := cells |}
      | Raise e => Raise e
      end
  end.

(** The instance attributes. *)
Record Index := {
  _descr_cache : list DescriptorElement;
  _descr_matrix : option (list vec);
  _descr2index : dict vec nat;
  _dist_kernel : option (list vec)
}.

(** The world: the instance, and the calls made to the trainer so far. *)
Record World := {
  self : Index;
  svm_train_calls : list (svm_problem * svm_params)
}.

Definition set_self (f : Index -> Index) : M World unit :=
  modify (fun w => {| self := f (self w);
                      svm_train_calls := svm_train_calls w |}).

Definition set_descr_cache (c : list DescriptorElement) : M World unit :=
  set_self (fun s => {| _descr_cache := c;
                        _descr_matrix := _descr_matrix s;
                        _descr2index := _descr2index s;
                        _dist_kernel := _dist_kernel s |}).

Definition set_descr_matrix (m : option (list vec)) : M World unit :=
  set_self (fun s => {| _descr_cache := _descr_cache s;
                        _descr_matrix := m;
                        _descr2index := _descr2index s;
                        _dist_kernel := _dist_kernel s |}).

Definition set_descr2index (d : dict vec nat) : M World unit :=
  set_self (fun s => {| _descr_cache := _descr_cache s;
                        _descr_matrix := _descr_matrix s;
                        _descr2index := d;
                        _dist_kernel := _dist_kernel s |}).

(** [__init__] *)
Definition init : Index :=
  {| _descr_cache := [];
     _descr_matrix := None;
     _descr2index := dict_empty;
     _dist_kernel := None |}.

Definition new_world : World :=
  {| self := init; svm_train_calls := [] |}.

(** [SVM_TRAIN_PARAMS] *)
Definition SVM_TRAIN_PARAMS : svm_params :=
  [ ("-q"%string, PFlag);
    ("-t"%string, PInt 5);
    ("-b"%string, PInt 1);
    ("-c"%string, PInt 2);
    ("-g"%string, PFloat (78125 / 10000000)%R) ].

(** [_gen_w1_weight]: [max(1.0, num_neg/float(num_pos))].  The float
    division raises on a zero divisor; [max(a, b)] is [b] when [b > a] and
    [a] otherwise. *)
Definition _gen_w1_weight (num_pos num_neg : nat) : result R :=
  match num_pos with
  | O => Raise ZeroDivisionError
  | S _ =>
      let q := (INR num_neg / INR num_pos)%R in
      Ok (if Rlt_dec 1 q then q else 1%R)
  end.

(** [_gen_svm_parameter_string]: a copy of [SVM_TRAIN_PARAMS] with the
    entry ['-w1'].  The source joins the keys and values into one string
    for the trainer; the model hands the trainer the pairs themselves. *)
Definition _gen_svm_parameter_string (num_pos num_neg : nat)
  : result svm_params :=
  match _gen_w1_weight num_pos num_neg with
  | Raise e => Raise e
  | Ok w1 => Ok (dict_set SVM_TRAIN_PARAMS "-w1"%string (PFloat w1))
  end.

(** [count] *)
Definition count : M World nat :=
  w <- get ;; ret (length (_descr_cache (self w))).

(** The body of the loop of [build_index], for the pair [(i, d)] of
    [enumerate(descriptors)]. *)
Definition build_index_body (id : nat * DescriptorElement) : M World unit :=
  let i := fst id in
  let d := snd id in
  let v := vector d in
  w <- get ;;
  set_descr_cache (_descr_cache (self w) ++ [d]) ;;
  w <- get ;;
  match _descr_matrix (self w) with
  | None => lift (Raise AttributeError)
  | Some rows => set_descr_matrix (Some (rows ++ [v]))
  end ;;
  w <- get ;;
  set_descr2index (dict_set (_descr2index (self w)) v i).

(** [build_index].  The three attributes are reset, the loop appends to
    the cache and to the list of vectors and writes the reverse lookup,
    and the list of vectors becomes an array at the end.  The [None]
    branches are never taken: the attribute holds a list from the reset
    on. *)
Definition build_index (descriptors : list DescriptorElement)
  : M World unit :=
  set_descr_cache [] ;;
  set_descr2index dict_empty ;;
  set_descr_matrix (Some []) ;;
  for_each (enumerate descriptors) build_index_body ;;
  w <- get ;;
  match _descr_matrix (self w) with
  | None => lift (Raise AttributeError)
  | Some rows => set_descr_matrix (Some (numpy_array rows))
  end.

(** The Index Snapshot: the descriptor cache, the matrix of vectors and
    the reverse lookup. *)
Definition snapshot (s : Index)
  : list DescriptorElement * option (list vec) * dict vec nat :=
  (_descr_cache s, _descr_matrix s, _descr2index s).

(** The reverse lookup after indexing [ds]: position [i] written under the
    vector of [ds[i]], in order. *)
Definition reverse_lookup (ds : list DescriptorElement) : dict vec nat :=
  dict_of_pairs (map (fun id => (vector (snd id), fst id)) (enumerate ds)).

(** The instance after [build_index(ds)]. *)
Definition built (ds : list DescriptorElement) (s : Index) : Index :=
  {| _descr_cache := ds;
     _descr_matrix := Some (map vector ds);
     _descr2index := reverse_lookup ds;
     _dist_kernel := _dist_kernel s |}.

(** One call to the trainer: recorded, then answered. *)
Definition call_svm_train (p : svm_problem) (params : svm_params)
  : M World svm_model :=
  modify (fun w =>
            {| self := self w;
               svm_train_calls := svm_train_calls w ++ [(p, params)] |}) ;;
  lift (svm_train p params).

(** The two loops of [rank] that assemble the training set. *)
Definition append_exemplars (label : Z) (ds : list DescriptorElement)
    (acc : list Z * list vec) : list Z * list vec :=
  fold_left (fun a d => (fst a ++ [label], snd a ++ [vector d])) ds acc.

(** [sum(svm_model.nSV[:svm_model.nr_class])] *)
Definition num_SVs (model : svm_model) : nat :=
  list_sum (map (nSV model) (seq 0 (nr_class model))).

(** The array [svm_SVs]: row [i] holds the first [dim_SVs] values of the
    support vector [svm_model.SV[i]]. *)
Definition svm_SVs (model : svm_model) (dim_SVs : nat) : list vec :=
  map (fun i => map (fun j => SV model i j) (seq 0 dim_SVs))
      (seq 0 (num_SVs model)).

(** [numpy.array(svm_model.get_sv_coef()).flatten()] *)
Definition weights (model : svm_model) : vec := concat (sv_coef model).

(** [1.0 / (1.0 + numpy.exp((margins - rho) * probA + probB))],
    element by element. *)
Definition platt_scaling (margins : vec) (rho probA probB : R) : vec :=
  map (fun m => (1 / (1 + exp ((m - rho) * probA + probB)))%R) margins.

(** [rank], up to the array [probs]. *)
Definition rank_probs (pos neg : list DescriptorElement) : M World vec :=
  let train := append_exemplars (-1) neg (append_exemplars 1 pos ([], [])) in
  let train_labels := fst train in
  let train_vectors := snd train in
  let problem := {| prob_y := train_labels; prob_x := train_vectors |} in
  params <- lift (_gen_svm_parameter_string (length pos) (length neg)) ;;
  model <- call_svm_train problem params ;;
  dim_SVs <- lift (match train_vectors with
                   | [] => Raise IndexError
                   | v :: _ => Ok (length v)
                   end) ;;
  w <- get ;;
  svm_test_k <- lift (compute_distance_matrix (svm_SVs model dim_SVs)
                        (_descr_matrix (self w))
                        histogram_intersection_distance2) ;;
  margins <- lift (numpy_dot (weights model) svm_test_k) ;;
  ret (platt_scaling margins (rho model 0) (probA model 0) (probB model 0)).

(** [rank]: [dict(zip(self._descr_cache, probs))]. *)
Definition rank (pos neg : list DescriptorElement)
  : M World (dict uuid_t R) :=
  probs <- rank_probs pos neg ;;
  w <- get ;;
  ret (dict_of_pairs (zip (map uuid (_descr_cache (self w))) probs)).

End LibSvmHikIqrIndex.

(** ** The formulas of the specification

    Written from the words of the specification, to be compared with what
    [rank] computes. *)

Section SpecFormulas.
Context {uuid_t : Type}.
Variable dist : vec -> vec -> R.

(** The dot product of two vectors. *)
Definition spec_dot (a b : vec) : R :=
  Rsum (map (fun p => (fst p * snd p)%R) (combine a b)).

(** The raw margin of an item: the dot product of the support-vector
    coefficients with the kernel values between the support vectors and
    the item. *)
Definition spec_margin (coef : vec) (svs : list vec) (item : vec) : R :=
  spec_dot coef (map (fun sv => dist sv item) svs).

(** The raw margin of an item under a trained model, in the model's own
    terms: the sum, over the coefficients [get_sv_coef()] lists, of the
    coefficient times the kernel value between the support vector of that
    position, read over [dim] values, and the item. *)
Definition spec_model_margin (model : svm_model) (dim : nat) (item : vec)
  : R :=
  Rsum (map (fun k =>
               (nth k (concat (sv_coef model)) 0
                * dist (map (fun j => SV model k j) (seq 0 dim)) item)%R)
            (seq 0 (length (concat (sv_coef model))))).

(** [p = 1 / (1 + exp((m - rho) * probA + probB))] *)
Definition spec_probability (m rho probA probB : R) : R :=
  (1 / (1 + exp ((m - rho) * probA + probB)))%R.

(** The training set of a ranking call: label +1 for every positive
    exemplar, then label -1 for every negative one. *)
Definition spec_training_set (pos neg : list (@DescriptorElement uuid_t))
  : svm_problem :=
  {| prob_y := map (fun _ => 1%Z) pos ++ map (fun _ => (-1)%Z) neg;
     prob_x := map vector pos ++ map vector neg |}.

(** [w1 = max(1.0, |neg| / |pos|)] *)
Definition spec_w1 (num_pos num_neg : nat) : R :=
  Rmax 1 (INR num_neg / INR num_pos).

End SpecFormulas.

(** ** The Platt scaling line in binary64

    Line 214 of the source, [1.0 / (1.0 + numpy.exp((margins - rho) * probA
    + probB))], on IEEE 754 binary64 values, which Python floats and
    [numpy.float64] are. *)

Section Binary64.

(** The rounding of the exponential where its value lies inside the range
    of binary64: a parameter. *)
Variable exp_core : float -> float.

(** [numpy.exp] on a binary64 value.  The result is fixed where the
    exponential leaves the range of binary64: from 710 on it exceeds the
    largest finite value, about e^709.78, and the result is [inf]; down
    from -746 it is below half the smallest positive value, about
    e^-745.13, and the result is 0.0. *)
Definition numpy_exp (t : float) : float :=
  if (710 <=? t)%float then infinity
  else if (t <=? -746)%float then 0%float
  else exp_core t.

Definition platt_scaling_binary64 (margins : list float)
    (rho probA probB : float) : list float :=
  map (fun m => (1 / (1 + numpy_exp ((m - rho) * probA + probB)))%float)
      margins.

End Binary64.

(** ** A small index, used to run the definitions

    Two descriptors with string identities, the histogram intersection as
    the kernel, and a trainer that keeps the first two training vectors as
    support vectors. *)

Module Example.

(** Modelled from the spec: the histogram intersection kernel is not among
    the sources.  Section 4.1: the sum over the dimensions of the
    element-wise minimum of two equal-length vectors. *)
Definition histogram_intersection (a b : vec) : R :=
  Rsum (map (fun p => Rmin (fst p) (snd p)) (combine a b)).

Definition d_a : @DescriptorElement string :=
  {| uuid := "a"%string; vector := [1; 0]%R |}.

Definition d_b : @DescriptorElement string :=
  {| uuid := "b"%string; vector := [0; 1]%R |}.

Definition d_c : @DescriptorElement string :=
  {| uuid := "c"%string; vector := [1; 0]%R |}.

Definition train (p : svm_problem) (params : svm_params)
  : result svm_model :=
  match prob_x p with
  | [] => Raise ValueError
  | _ :: _ =>
      Ok {| nr_class := 2;
            nSV := fun _ => 1;
            SV := fun i j => nth j (nth i (prob_x p) []) 0%R;
            sv_coef := [[1%R]; [(-1)%R]];
            rho := fun _ => 0%R;
            probA := fun _ => (-1)%R;
            probB := fun _ => 0%R |}
  end.

(** A matrix builder that rejects [None]. *)
Definition on_none (m1 : list vec) (dist_func : vec -> vec -> R)
  : result ndarray2 :=
  Raise AttributeError.

Definition fresh : @World string := new_world.

Definition rank (pos neg : list (@DescriptorElement string))
  : M (@World string) (dict string R) :=
  rank train histogram_intersection on_none pos neg.

(** The index over [d_a] and [d_b], and the index over [d_a] given
    twice. *)
Definition index_ab : @World string := snd (build_index [d_a; d_b] fresh).

Definition index_aa : @World string := snd (build_index [d_a; d_a] fresh).

End Example.

(** ** A client of the class

    A sequence of method calls on one instance, run from left to right.  A
    call that raises leaves the world it has reached, and the next call
    goes on from there. *)

Section Session.
Context {uuid_t : Type} `{Hashable uuid_t}.
Variable svm_train : svm_problem -> svm_params -> result svm_model.
Variable dist : vec -> vec -> R.
Variable on_none : list vec -> (vec -> vec -> R) -> result ndarray2.

Inductive method_call :=
| CallBuildIndex (descriptors : list (@DescriptorElement uuid_t))
| CallRank (pos neg : list (@DescriptorElement uuid_t))
| CallCount.

Definition run_call (w : @World uuid_t) (c : method_call) : @World uuid_t :=
  match c with
  | CallBuildIndex descriptors => snd (build_index descriptors w)
  | CallRank pos neg => snd (rank svm_train dist on_none pos neg w)
  | CallCount => snd (count w)
  end.

Definition run_calls (cs : list method_call) (w : @World uuid_t)
  : @World uuid_t :=
  fold_left run_call cs w.

(** The argument of the last [build_index] of a sequence, if any. *)
Definition last_indexed (cs : list method_call)
  : option (list (@DescriptorElement uuid_t)) :=
  fold_left (fun acc c =>
               match c with
               | CallBuildIndex descriptors => Some descriptors
               | _ => acc
               end) cs None.

(** Whether a call is a [rank] with at least one positive exemplar. *)
Definition ranks_with_positives (c : method_call) : bool :=
  match c with
  | CallRank (_ :: _) _ => true
  | _ => false
  end.

End Session.

(** More runs on the small index: a trainer that always fails, a matrix
    builder that answers [None] with a matrix without columns, a third
    descriptor with the vector of [d_a] and [d_c], an index with two
    descriptors that share a vector, and a stand-in for the exponential
    inside the range of binary64, which the runs below do not reach. *)

Module Scenario.

Definition failing_train (p : svm_problem) (params : svm_params)
  : result svm_model :=
  Raise "TrainerFailure"%string.

Definition index_acb : @World string :=
  snd (build_index [Example.d_a; Example.d_c; Example.d_b] Example.fresh).

Definition empty_matrix_of_none (m1 : list vec)
    (dist_func : vec -> vec -> R) : result ndarray2 :=
  Ok {| nrows := length m1; ncols := 0; cells := map (fun _ => []) m1 |}.

Definition d_e : @DescriptorElement string :=
  {| uuid := "e"%string; vector := [1; 0]%R |}.

Definition exp_core (t : float) : float := 1%float.

End Scenario.

(** Unfolds the monad's operations and the record projections they meet. *)
Ltac run_monad :=
  cbv beta iota zeta delta [bind lift call_svm_train modify get ret];
  cbn [self svm_train_calls fst snd].

(** ** Dictionaries: lookup after update, key sets *)

Section DictFacts.
Context {K V : Type} `{Hashable K}.

Lemma dict_get_set (d : dict K V) (k k' : K) (v : V) :
  dict_get (dict_set d k v) k' =
  if key_eq_dec k' k then Some v else dict_get d k'.
Proof.
  induction d as [|[k0 v0] d IH]; simpl.
  - destruct (key_eq_dec k' k); reflexivity.
  - destruct (key_eq_dec k k0) as [E|N]; simpl.
    + subst k0. destruct (key_eq_dec k' k); reflexivity.
    + rewrite IH.
      destruct (key_eq_dec k' k0) as [E'|N'], (key_eq_dec k' k) as [E2|N2];
        try reflexivity; congruence.
Qed.

Lemma dict_keys_set (d : dict K V) (k k' : K) (v : V) :
  In k' (dict_keys (dict_set d k v)) <-> k' = k \/ In k' (dict_keys d).
Proof.
  unfold dict_keys.
  induction d as [|[k0 v0] d IH]; simpl.
  - intuition.
  - destruct (key_eq_dec k k0) as [E|N]; simpl.
    + subst. intuition.
    + rewrite IH. intuition.
Qed.

Lemma dict_set_NoDup (d : dict K V) (k : K) (v : V) :
  NoDup (dict_keys d) -> NoDup (dict_keys (dict_set d k v)).
Proof.
  induction d as [|[k0 v0] d IH]; simpl; intros ND.
  - constructor; [intros [] | constructor].
  - destruct (key_eq_dec k k0) as [E|N]; simpl; [exact ND|].
    inversion ND as [|? ? Hnin ND']; subst.
    constructor; [|apply IH, ND'].
    intros Hin. apply (dict_keys_set d k k0 v) in Hin.
    destruct Hin as [E|Hin]; [congruence | exact (Hnin Hin)].
Qed.

Lemma dict_set_len_new (d : dict K V) (k : K) (v : V) :
  ~ In k (dict_keys d) -> dict_len (dict_set d k v) = S (dict_len d).
Proof.
  unfold dict_len, dict_keys.
  induction d as [|[k0 v0] d IH]; simpl; intros Hnin; [reflexivity|].
  destruct (key_eq_dec k k0) as [E|N]; simpl.
  - exfalso. apply Hnin. left. congruence.
  - rewrite IH; [reflexivity | intuition].
Qed.

Lemma dict_set_len_old (d : dict K V) (k : K) (v : V) :
  In k (dict_keys d) -> dict_len (dict_set d k v) = dict_len d.
Proof.
  unfold dict_len, dict_keys.
  induction d as [|[k0 v0] d IH]; simpl; intros Hin; [contradiction|].
  destruct (key_eq_dec k k0) as [E|N]; simpl; [reflexivity|].
  rewrite IH; [reflexivity|]. destruct Hin; congruence.
Qed.

Lemma dict_get_in_keys (d : dict K V) (k : K) (v : V) :
  dict_get d k = Some v -> In k (dict_keys d).
Proof.
  unfold dict_keys.
  induction d as [|[k0 v0] d IH]; simpl; [discriminate|].
  destruct (key_eq_dec k k0); [left; congruence | right; auto].
Qed.

Lemma dict_in_keys_get (d : dict K V) (k : K) :
  In k (dict_keys d) -> exists v, dict_get d k = Some v.
Proof.
  unfold dict_keys.
  induction d as [|[k0 v0] d IH]; simpl; [contradiction|].
  intros Hin. destruct (key_eq_dec k k0) as [E|N]; [exists v0; reflexivity|].
  apply IH. destruct Hin; congruence.
Qed.

Lemma dict_get_values (d : dict K V) (k : K) (v : V) :
  dict_get d k = Some v -> In v (map snd d).
Proof.
  induction d as [|[k0 v0] d IH]; simpl; [discriminate|].
  destruct (key_eq_dec k k0); [left; congruence | right; auto].
Qed.

(** [dict(pairs)] from the right end: the last pair is the last update. *)
Lemma dict_of_pairs_app (l : list (K * V)) (k : K) (v : V) :
  dict_of_pairs (l ++ [(k, v)]) = dict_set (dict_of_pairs l) k v.
Proof. unfold dict_of_pairs. rewrite fold_left_app. reflexivity. Qed.

Lemma dict_of_pairs_keys (l : list (K * V)) (k : K) :
  In k (dict_keys (dict_of_pairs l)) <-> In k (map fst l).
Proof.
  induction l as [|[k0 v0] l IH] using rev_ind; [simpl; tauto|].
  rewrite dict_of_pairs_app, dict_keys_set, IH, map_app, in_app_iff.
  simpl. intuition.
Qed.

Lemma dict_of_pairs_NoDup (l : list (K * V)) :
  NoDup (dict_keys (dict_of_pairs l)).
Proof.
  induction l as [|[k0 v0] l IH] using rev_ind; [constructor|].
  rewrite dict_of_pairs_app. apply dict_set_NoDup, IH.
Qed.

Lemma dict_of_pairs_len_le (l : list (K * V)) :
  dict_len (dict_of_pairs l) <= length l.
Proof.
  induction l as [|[k0 v0] l IH] using rev_ind; [simpl; lia|].
  rewrite dict_of_pairs_app, length_app. simpl.
  destruct (in_dec key_eq_dec k0 (dict_keys (dict_of_pairs l))) as [i|n].
  - rewrite dict_set_len_old by exact i. lia.
  - rewrite dict_set_len_new by exact n. lia.
Qed.

Lemma dict_of_pairs_len_NoDup (l : list (K * V)) :
  NoDup (map fst l) -> dict_len (dict_of_pairs l) = length l.
Proof.
  induction l as [|[k0 v0] l IH] using rev_ind; [reflexivity|].
  rewrite map_app. simpl. intros ND.
  apply NoDup_remove in ND. rewrite app_nil_r in ND. destruct ND as [ND Hnin].
  rewrite dict_of_pairs_app, length_app. simpl.
  rewrite dict_set_len_new; [rewrite IH by exact ND; lia|].
  rewrite dict_of_pairs_keys. exact Hnin.
Qed.

Lemma dict_of_pairs_values (l : list (K * V)) (v : V) :
  In v (map snd (dict_of_pairs l)) -> In v (map snd l).
Proof.
  induction l as [|[k0 v0] l IH] using rev_ind; [simpl; tauto|].
  rewrite dict_of_pairs_app, map_app, in_app_iff. simpl.
  generalize (dict_of_pairs l) IH. clear IH.
  intros d. induction d as [|[k1 v1] d IHd]; simpl; intros IH.
  - intuition.
  - destruct (key_eq_dec k0 k1); simpl in *; intuition.
Qed.

(** Last update wins: a key written by the last pair of a list whose
    later pairs have other keys keeps that value. *)
Lemma dict_of_pairs_last (l1 l2 : list (K * V)) (k : K) (v : V) :
  ~ In k (map fst l2) ->
  dict_get (dict_of_pairs (l1 ++ (k, v) :: l2)) k = Some v.
Proof.
  induction l2 as [|[k0 v0] l2 IH] using rev_ind; intros Hnin.
  - rewrite dict_of_pairs_app, dict_get_set.
    destruct (key_eq_dec k k); congruence.
  - rewrite map_app, in_app_iff in Hnin. simpl in Hnin.
    replace (l1 ++ (k, v) :: l2 ++ [(k0, v0)])
      with ((l1 ++ (k, v) :: l2) ++ [(k0, v0)])
      by (rewrite <- app_assoc; reflexivity).
    rewrite dict_of_pairs_app, dict_get_set.
    destruct (key_eq_dec k k0); [exfalso; intuition|].
    apply IH. intuition.
Qed.

End DictFacts.

(** ** [build_index] *)

Section BuildIndexFacts.
Context {uuid_t : Type} `{Hashable uuid_t}.

#[local] Abbreviation Descr := (@DescriptorElement uuid_t).

Lemma build_index_loop (l : list Descr) :
  forall (n : nat) (c : list Descr) (m : list vec) (r : dict vec nat)
         (k : option (list vec)) (calls : list (svm_problem * svm_params)),
    for_each (combine (seq n (length l)) l) build_index_body
      {| self := {| _descr_cache := c; _descr_matrix := Some m;
                    _descr2index := r; _dist_kernel := k |};
         svm_train_calls := calls |}
    = (Ok tt,
       {| self := {| _descr_cache := c ++ l;
                     _descr_matrix := Some (m ++ map vector l);
                     _descr2index :=
                       fold_left (fun d kv => dict_set d (fst kv) (snd kv))
                         (map (fun id => (vector (snd id), fst id))
                              (combine (seq n (length l)) l)) r;
                     _dist_kernel := k |};
          svm_train_calls := calls |}).
Proof.
  induction l as [|d l IH]; intros n c m r k calls.
  - simpl. rewrite !app_nil_r. reflexivity.
  - simpl. unfold bind at 1. unfold build_index_body at 1.
    cbn -[for_each combine seq length].
    rewrite IH. rewrite <- !app_assoc. reflexivity.
Qed.

Lemma build_index_run (ds : list Descr) (w : World) :
  build_index ds w
  = (Ok tt, {| self := built ds (self w);
               svm_train_calls := svm_train_calls w |}).
Proof.
  unfold build_index, enumerate.
  unfold bind at 1. cbn -[for_each combine seq length bind].
  unfold bind at 1. cbn -[for_each combine seq length bind].
  unfold bind at 1. cbn -[for_each combine seq length bind].
  unfold bind at 1. rewrite build_index_loop.
  reflexivity.
Qed.

End BuildIndexFacts.

(** ** Arrays: the matrix of kernel values and the product *)

Lemma nth_map_seq {A} (f : nat -> A) (n j : nat) (d : A) :
  j < n -> nth j (map f (seq 0 n)) d = f j.
Proof.
  intros Hj.
  rewrite (nth_indep _ d (f 0)) by (rewrite length_map, length_seq; exact Hj).
  rewrite map_nth, seq_nth by exact Hj. reflexivity.
Qed.

Lemma Rsum_index_dot (a b : vec) :
  length a = length b ->
  Rsum (map (fun i => (nth i a 0 * nth i b 0)%R) (seq 0 (length a)))
  = spec_dot a b.
Proof.
  revert b. induction a as [|r a IH]; intros [|s b] Hlen;
    try discriminate; [reflexivity|].
  injection Hlen as Hlen. unfold spec_dot in *. simpl.
  rewrite <- seq_shift, map_map. simpl. rewrite IH by exact Hlen.
  reflexivity.
Qed.

Lemma all_ok_map_inv {A B : Type} (f : A -> result B) (l : list A)
    (l' : list B) :
  all_ok (map f l) = Ok l' ->
  length l' = length l /\
  forall i a, nth_error l i = Some a ->
    exists b, f a = Ok b /\ nth_error l' i = Some b.
Proof.
  revert l'. induction l as [|a0 l IH]; simpl; intros l' Hok.
  - injection Hok as <-. split; [reflexivity|].
    intros [|i] a Hi; discriminate Hi.
  - destruct (f a0) as [b0|e] eqn:Ef; [|discriminate Hok].
    destruct (all_ok (map f l)) as [r|e] eqn:Er; [|discriminate Hok].
    injection Hok as <-. destruct (IH r eq_refl) as [Hlen Hnth].
    split; [simpl; rewrite Hlen; reflexivity|].
    intros [|i] a Hi; simpl in Hi |- *.
    + injection Hi as <-. exists b0. split; [exact Ef | reflexivity].
    + exact (Hnth i a Hi).
Qed.

Section MatrixBuilder.
Variable on_none : list vec -> (vec -> vec -> R) -> result ndarray2.
Variable dist : vec -> vec -> R.

Lemma compute_distance_matrix_shape (m1 rows : list vec) (k : ndarray2) :
  compute_distance_matrix on_none m1 (Some rows) dist = Ok k ->
  nrows k = length m1 /\ ncols k = length rows.
Proof.
  unfold compute_distance_matrix.
  destruct (all_ok _) as [c|e]; [|discriminate].
  intros [= <-]. split; reflexivity.
Qed.

(** When the matrix builder returns on two sets of vectors, the entry
    (i, j) is the kernel value of the vectors i and j. *)
Lemma compute_distance_matrix_entry (m1 rows : list vec) (k : ndarray2)
    (i j : nat) :
  compute_distance_matrix on_none m1 (Some rows) dist = Ok k ->
  i < length m1 -> j < length rows ->
  entry k i j = dist (nth i m1 []) (nth j rows []).
Proof.
  unfold compute_distance_matrix. intros Hk Hi Hj.
  destruct (all_ok _) as [c|e] eqn:Ec; [|discriminate Hk].
  injection Hk as <-. unfold entry. cbn [cells].
  apply all_ok_map_inv in Ec. destruct Ec as [_ Hrows].
  destruct (Hrows i (nth i m1 []) (nth_error_nth' m1 [] Hi))
    as (row & Hrow & Hci).
  apply all_ok_map_inv in Hrow. destruct Hrow as [_ Hcells].
  destruct (Hcells j (nth j rows []) (nth_error_nth' rows [] Hj))
    as (v & Hv & Hcj).
  rewrite (nth_error_nth _ _ _ Hci), (nth_error_nth _ _ _ Hcj).
  unfold kernel_value in Hv.
  destruct (length (nth i m1 []) =? length (nth j rows []));
    [|discriminate Hv].
  injection Hv as <-. reflexivity.
Qed.

(** The vector-matrix product of [rank] is, item by item, the dot product
    of the specification. *)
Lemma numpy_dot_margin (w : vec) (m1 rows : list vec) (k : ndarray2)
    (margins : vec) :
  compute_distance_matrix on_none m1 (Some rows) dist = Ok k ->
  numpy_dot w k = Ok margins ->
  length w = length m1 /\
  length margins = length rows /\
  forall j, j < length rows ->
    nth j margins 0%R = spec_margin dist w m1 (nth j rows []).
Proof.
  intros Hk Hdot. unfold numpy_dot in Hdot.
  destruct (compute_distance_matrix_shape m1 rows k Hk) as [Hr Hc].
  destruct (Nat.eqb_spec (length w) (nrows k)) as [Hlen|]; [|discriminate].
  injection Hdot as <-. rewrite Hr in *. rewrite Hc.
  split; [exact Hlen|]. split; [rewrite length_map, length_seq; reflexivity|].
  intros j Hj. rewrite nth_map_seq by exact Hj.
  unfold spec_margin.
  rewrite <- Rsum_index_dot by (rewrite length_map; exact Hlen).
  rewrite Hlen. f_equal. apply map_ext_in. intros i Hi.
  apply in_seq in Hi. destruct Hi as [_ Hi]. simpl in Hi.
  rewrite (compute_distance_matrix_entry m1 rows k i j Hk Hi Hj).
  f_equal.
  rewrite (nth_indep _ 0%R (dist [] (nth j rows [])))
    by (rewrite length_map; exact Hi).
  rewrite (map_nth (fun sv => dist sv (nth j rows []))). reflexivity.
Qed.

End MatrixBuilder.

Lemma platt_scaling_nth (margins : vec) (rho probA probB : R) (j : nat) :
  j < length margins ->
  nth j (platt_scaling margins rho probA probB) 0%R
  = spec_probability (nth j margins 0%R) rho probA probB.
Proof.
  intros Hj. unfold platt_scaling, spec_probability.
  rewrite (nth_indep _ 0%R
             ((fun m => (1 / (1 + exp ((m - rho) * probA + probB)))%R) 0%R))
    by (rewrite length_map; exact Hj).
  rewrite (map_nth (fun m => (1 / (1 + exp ((m - rho) * probA + probB)))%R)).
  reflexivity.
Qed.

(** ** [rank] *)

Section RankFacts.
Context {uuid_t : Type} `{Hashable uuid_t}.
Variable svm_train : svm_problem -> svm_params -> result svm_model.
Variable dist : vec -> vec -> R.
Variable on_none : list vec -> (vec -> vec -> R) -> result ndarray2.

#[local] Abbreviation Descr := (@DescriptorElement uuid_t).

Lemma append_exemplars_spec (label : Z) (ds : list Descr)
    (acc : list Z * list vec) :
  append_exemplars label ds acc
  = (fst acc ++ map (fun _ => label) ds, snd acc ++ map vector ds).
Proof.
  unfold append_exemplars. revert acc.
  induction ds as [|d ds IH]; intros [ls vs]; simpl.
  - rewrite !app_nil_r. reflexivity.
  - rewrite IH. simpl. rewrite <- !app_assoc. reflexivity.
Qed.

Lemma training_set_spec (pos neg : list Descr) :
  {| prob_y :=
       fst (append_exemplars (-1) neg (append_exemplars 1 pos ([], [])));
     prob_x :=
       snd (append_exemplars (-1) neg (append_exemplars 1 pos ([], []))) |}
  = spec_training_set pos neg.
Proof. rewrite !append_exemplars_spec. reflexivity. Qed.

(** What a ranking call that returns has gone through. *)
Lemma rank_probs_inv (pos neg : list Descr) (w w' : World) (probs : vec) :
  rank_probs svm_train dist on_none pos neg w = (Ok probs, w') ->
  exists params model v0 k margins,
    _gen_svm_parameter_string (length pos) (length neg) = Ok params /\
    svm_train (spec_training_set pos neg) params = Ok model /\
    nth_error (map vector pos ++ map vector neg) 0 = Some v0 /\
    compute_distance_matrix on_none (svm_SVs model (length v0))
      (_descr_matrix (self w)) dist = Ok k /\
    numpy_dot (weights model) k = Ok margins /\
    probs = platt_scaling margins (rho model 0) (probA model 0)
              (probB model 0) /\
    w' = {| self := self w;
            svm_train_calls :=
              svm_train_calls w ++ [(spec_training_set pos neg, params)] |}.
Proof.
  unfold rank_probs. rewrite training_set_spec.
  rewrite !append_exemplars_spec. simpl fst. simpl snd.
  run_monad.
  destruct (_gen_svm_parameter_string (length pos) (length neg))
    as [params|e] eqn:Ep; [|discriminate].
  run_monad.
  destruct (svm_train (spec_training_set pos neg) params)
    as [model|e] eqn:Et; [|discriminate].
  destruct (map vector pos ++ map vector neg) as [|v0 tv] eqn:Etv;
    [discriminate|].
  run_monad.
  destruct (compute_distance_matrix on_none (svm_SVs model (length v0))
              (_descr_matrix (self w)) dist) as [k|e] eqn:Ek;
    [|discriminate].
  destruct (numpy_dot (weights model) k) as [margins|e] eqn:Ed;
    [|discriminate].
  intros E. injection E as <- <-.
  exists params, model, v0, k, margins.
  repeat split; assumption || reflexivity.
Qed.

(** Whatever the outcome, a ranking call leaves the instance as it was
    and invokes the trainer at most once. *)
Lemma rank_probs_self (pos neg : list Descr) (w : World) :
  self (snd (rank_probs svm_train dist on_none pos neg w)) = self w.
Proof.
  unfold rank_probs.
  rewrite training_set_spec, !append_exemplars_spec. run_monad.
  destruct (_gen_svm_parameter_string (length pos) (length neg));
    [|reflexivity].
  run_monad. destruct (svm_train _ _); [|reflexivity].
  destruct (([] ++ map vector pos) ++ map vector neg); [reflexivity|].
  run_monad. destruct (compute_distance_matrix _ _ _); [|reflexivity].
  destruct (numpy_dot _ _); reflexivity.
Qed.

Lemma rank_self (pos neg : list Descr) (w : World) :
  self (snd (rank svm_train dist on_none pos neg w)) = self w.
Proof.
  unfold rank. unfold bind at 1.
  pose proof (rank_probs_self pos neg w) as Hs.
  destruct (rank_probs svm_train dist on_none pos neg w) as [[probs|e] w1];
    exact Hs.
Qed.

(** The outcome of a ranking call depends on the matrix of vectors only,
    not on the record of earlier trainer calls. *)
Lemma rank_probs_result (pos neg : list Descr) (w1 w2 : World) :
  _descr_matrix (self w1) = _descr_matrix (self w2) ->
  fst (rank_probs svm_train dist on_none pos neg w1)
  = fst (rank_probs svm_train dist on_none pos neg w2).
Proof.
  intros Hs. unfold rank_probs.
  rewrite training_set_spec, !append_exemplars_spec. run_monad.
  destruct (_gen_svm_parameter_string (length pos) (length neg));
    [|reflexivity].
  run_monad. destruct (svm_train _ _); [|reflexivity].
  destruct (([] ++ map vector pos) ++ map vector neg); [reflexivity|].
  run_monad. rewrite Hs.
  destruct (compute_distance_matrix _ _ _); [|reflexivity].
  destruct (numpy_dot _ _); reflexivity.
Qed.

Lemma rank_fst (pos neg : list Descr) (w : World) :
  fst (rank svm_train dist on_none pos neg w)
  = match fst (rank_probs svm_train dist on_none pos neg w) with
    | Ok probs =>
        Ok (dict_of_pairs (zip (map uuid (_descr_cache (self w))) probs))
    | Raise e => Raise e
    end.
Proof.
  unfold rank. unfold bind at 1.
  pose proof (rank_probs_self pos neg w) as Hs.
  destruct (rank_probs svm_train dist on_none pos neg w) as [[probs|e] w1];
    [|reflexivity].
  simpl in Hs. run_monad. rewrite Hs. reflexivity.
Qed.

(** Once the parameters are there, the trainer is invoked exactly once,
    with the training set and those parameters. *)
Lemma rank_calls (pos neg : list Descr) (w : World) (params : svm_params) :
  _gen_svm_parameter_string (length pos) (length neg) = Ok params ->
  svm_train_calls (snd (rank svm_train dist on_none pos neg w))
  = svm_train_calls w ++ [(spec_training_set pos neg, params)].
Proof.
  intros Hp. unfold rank, rank_probs.
  rewrite training_set_spec, !append_exemplars_spec, Hp. run_monad.
  destruct (svm_train _ _); [|reflexivity].
  destruct (([] ++ map vector pos) ++ map vector neg); [reflexivity|].
  run_monad. destruct (compute_distance_matrix _ _ _); [|reflexivity].
  destruct (numpy_dot _ _); reflexivity.
Qed.

Lemma rank_inv (pos neg : list Descr) (w w' : World) (d : dict uuid_t R) :
  rank svm_train dist on_none pos neg w = (Ok d, w') ->
  exists probs,
    rank_probs svm_train dist on_none pos neg w = (Ok probs, w') /\
    d = dict_of_pairs (zip (map uuid (_descr_cache (self w))) probs).
Proof.
  unfold rank. unfold bind at 1.
  pose proof (rank_probs_self pos neg w) as Hs.
  destruct (rank_probs svm_train dist on_none pos neg w) as [[probs|e] w1];
    [|discriminate].
  simpl in Hs. unfold bind, get, ret. intros E. injection E as <- <-.
  exists probs. rewrite Hs. split; reflexivity.
Qed.

End RankFacts.

(** ** Positions in a list of pairs *)

Lemma nth_error_combine {A B} (a : list A) (b : list B) (i : nat)
    (u : A) (v : B) :
  nth_error a i = Some u -> nth_error b i = Some v ->
  nth_error (combine a b) i = Some (u, v).
Proof.
  revert b i. induction a as [|a0 a IH]; intros [|b0 b] [|i]; simpl;
    try discriminate.
  - intros [= ->] [= ->]. reflexivity.
  - apply IH.
Qed.

Lemma nth_error_enumerate {A} (l : list A) (i : nat) (u : A) :
  nth_error l i = Some u -> nth_error (enumerate l) i = Some (i, u).
Proof.
  intros Hu. unfold enumerate. apply nth_error_combine; [|exact Hu].
  assert (Hi : i < length l) by (apply nth_error_Some; congruence).
  rewrite nth_error_nth' with (d := 0) by (rewrite length_seq; exact Hi).
  rewrite seq_nth by exact Hi. reflexivity.
Qed.

Section DictPositions.
Context {K V : Type} `{Hashable K}.

(** Last update wins, by position: the pair at position [i] decides the
    value of its key when no later pair has that key. *)
Lemma dict_of_pairs_nth (l : list (K * V)) (i : nat) (k : K) (v : V) :
  nth_error l i = Some (k, v) ->
  (forall j kv, i < j -> nth_error l j = Some kv -> fst kv <> k) ->
  dict_get (dict_of_pairs l) k = Some v.
Proof.
  intros Hi Hlater.
  destruct (nth_error_split l i Hi) as [l1 [l2 [-> Hlen]]].
  apply dict_of_pairs_last. intros Hin.
  apply in_map_iff in Hin. destruct Hin as [kv [Hk Hin]].
  apply In_nth_error in Hin. destruct Hin as [n Hn].
  apply (Hlater (S (i + n)) kv); [lia| |exact Hk].
  rewrite nth_error_app2 by lia.
  replace (S (i + n) - length l1) with (S n) by lia. exact Hn.
Qed.

(** Every key of the pairs has a last pair, and that pair decides. *)
Lemma dict_of_pairs_last_index (l : list (K * V)) (k : K) :
  In k (map fst l) ->
  exists m v,
    nth_error l m = Some (k, v) /\
    (forall j kv, m < j -> nth_error l j = Some kv -> fst kv <> k) /\
    dict_get (dict_of_pairs l) k = Some v.
Proof.
  induction l as [|[k0 v0] l IH] using rev_ind; [contradiction|].
  rewrite map_app, in_app_iff. simpl. intros Hin.
  destruct (key_eq_dec k k0) as [E|N].
  - subst k0. exists (length l), v0. split; [|split].
    + rewrite nth_error_app2, Nat.sub_diag by lia. reflexivity.
    + intros j kv Hj Hn.
      assert (Hlt : j < length (l ++ [(k, v0)]))
        by (apply nth_error_Some; congruence).
      rewrite length_app in Hlt. simpl in Hlt. lia.
    + rewrite dict_of_pairs_app, dict_get_set.
      destruct (key_eq_dec k k); congruence.
  - destruct IH as (m & v & Hm & Hlater & Hget).
    { destruct Hin as [Hin|[E|[]]]; [exact Hin | congruence]. }
    assert (Hml : m < length l) by (apply nth_error_Some; congruence).
    exists m, v. split; [|split].
    + rewrite nth_error_app1 by exact Hml. exact Hm.
    + intros j kv Hj Hn. destruct (Nat.lt_ge_cases j (length l)) as [Hjl|Hjl].
      * rewrite nth_error_app1 in Hn by exact Hjl. exact (Hlater j kv Hj Hn).
      * rewrite nth_error_app2 in Hn by exact Hjl.
        destruct (j - length l) as [|n]; simpl in Hn.
        -- injection Hn as <-. simpl. congruence.
        -- destruct n; discriminate Hn.
    + rewrite dict_of_pairs_app, dict_get_set.
      destruct (key_eq_dec k k0); [congruence | exact Hget].
Qed.

Lemma dict_get_of_pairs_none (l : list (K * V)) (k : K) :
  ~ In k (map fst l) -> dict_get (dict_of_pairs l) k = None.
Proof.
  intros Hnin. destruct (dict_get (dict_of_pairs l) k) as [v|] eqn:E;
    [|reflexivity].
  exfalso. apply Hnin. apply dict_of_pairs_keys.
  exact (dict_get_in_keys _ _ _ E).
Qed.

End DictPositions.

Lemma map_fst_combine {A B} (a : list A) (b : list B) :
  length a = length b -> map fst (combine a b) = a.
Proof.
  revert b. induction a as [|a0 a IH]; intros [|b0 b]; simpl;
    try discriminate; [reflexivity|].
  intros [= Hlen]. rewrite IH by exact Hlen. reflexivity.
Qed.

Lemma map_snd_combine_incl {A B} (a : list A) (b : list B) (v : B) :
  In v (map snd (combine a b)) -> In v b.
Proof.
  revert b. induction a as [|a0 a IH]; intros [|b0 b]; simpl; try tauto.
  intros [E|Hin]; [left; exact E | right; apply IH, Hin].
Qed.

Lemma nth_error_combine_inv {A B} (a : list A) (b : list B) (j : nat)
    (kv : A * B) :
  nth_error (combine a b) j = Some kv ->
  nth_error a j = Some (fst kv) /\ nth_error b j = Some (snd kv).
Proof.
  revert b j. induction a as [|a0 a IH]; intros [|b0 b] [|j]; simpl;
    try discriminate.
  - intros [= <-]. split; reflexivity.
  - apply IH.
Qed.

Section DictSize.
Context {K V : Type} `{Hashable K}.

(** A dictionary built from pairs has as many entries as there are pairs
    only if no key is given twice. *)
Lemma dict_of_pairs_len_distinct (l : list (K * V)) :
  dict_len (dict_of_pairs l) = length l -> NoDup (map fst l).
Proof.
  induction l as [|[k0 v0] l IH] using rev_ind; [constructor|].
  rewrite dict_of_pairs_app, length_app, map_app. simpl. intros Hlen.
  pose proof (dict_of_pairs_len_le l) as Hle.
  destruct (in_dec key_eq_dec k0 (dict_keys (dict_of_pairs l))) as [i|n].
  - rewrite dict_set_len_old in Hlen by exact i. lia.
  - rewrite dict_set_len_new in Hlen by exact n.
    assert (ND : NoDup (map fst l)) by (apply IH; lia).
    rewrite dict_of_pairs_keys in n.
    apply NoDup_app; [exact ND | constructor; [intros [] | constructor] |].
    intros x Hx [<-|[]]. exact (n Hx).
Qed.

End DictSize.

Lemma length_svm_SVs (model : svm_model) (dim : nat) :
  length (svm_SVs model dim) = num_SVs model.
Proof. unfold svm_SVs. rewrite length_map, length_seq. reflexivity. Qed.

(** The margin [rank] computes from its arrays of coefficients and of
    support vectors is the margin of the model in the model's own terms. *)
Lemma spec_margin_of_model (dist : vec -> vec -> R) (model : svm_model)
    (dim : nat) (item : vec) :
  length (weights model) = num_SVs model ->
  spec_margin dist (weights model) (svm_SVs model dim) item
  = spec_model_margin dist model dim item.
Proof.
  intros Hlen. unfold spec_margin, spec_model_margin.
  rewrite <- Rsum_index_dot
    by (rewrite length_map, length_svm_SVs; exact Hlen).
  unfold weights in *. apply f_equal, map_ext_in. intros k Hk.
  apply in_seq in Hk. destruct Hk as [_ Hk]. simpl in Hk. f_equal.
  rewrite Hlen in Hk.
  rewrite (nth_indep _ 0%R (dist [] item))
    by (rewrite length_map, length_svm_SVs; exact Hk).
  rewrite (map_nth (fun sv => dist sv item)). f_equal.
  unfold svm_SVs.
  rewrite (nth_map_seq (fun i => map (fun j => SV model i j) (seq 0 dim)))
    by exact Hk.
  reflexivity.
Qed.

(** ** Properties of [build_index] and [count] *)

Section BuildIndexClaims.
Context {uuid_t : Type} `{Hashable uuid_t}.

#[local] Abbreviation Descr := (@DescriptorElement uuid_t).
#[local] Abbreviation World' := (@World uuid_t).

Lemma nth_error_enumerate_inv (l : list Descr) (i n : nat) (d : Descr) :
  nth_error (enumerate l) i = Some (n, d) ->
  n = i /\ nth_error l i = Some d.
Proof.
  intros Hn.
  assert (Hi : i < length l).
  { assert (Hlt : i < length (enumerate l))
      by (apply nth_error_Some; congruence).
    unfold enumerate in Hlt. rewrite length_combine, length_seq in Hlt. lia. }
  destruct (nth_error l i) as [d'|] eqn:Ed;
    [|apply nth_error_None in Ed; lia].
  rewrite (nth_error_enumerate l i d' Ed) in Hn.
  injection Hn as <- <-. split; reflexivity.
Qed.

(** C2, on the code: [build_index([])] raises nothing.  It returns, and
    the snapshot it leaves is the empty one: no descriptor, no row, no
    reverse-lookup entry, whatever was indexed before. *)
Theorem build_index_empty_returns (w : World') :
  build_index [] w
  = (Ok tt,
     {| self := {| _descr_cache := [];
                   _descr_matrix := Some [];
                   _descr2index := dict_empty;
                   _dist_kernel := _dist_kernel (self w) |};
        svm_train_calls := svm_train_calls w |})
  /\ fst (count (snd (build_index [] w))) = Ok 0.
Proof. split; reflexivity. Qed.

(** C6.  After [build_index(ds)] on a non-empty [ds], from any prior
    state: the call returns, [count()] is the number of descriptors, the
    cache is [ds] in input order, row [i] of the matrix is the vector of
    [ds[i]], and the snapshot is the same whatever the prior state was. *)
Theorem build_index_replaces_snapshot (ds : list Descr) (w : World') :
  ds <> [] ->
  fst (build_index ds w) = Ok tt /\
  fst (count (snd (build_index ds w))) = Ok (length ds) /\
  _descr_cache (self (snd (build_index ds w))) = ds /\
  (exists rows,
      _descr_matrix (self (snd (build_index ds w))) = Some rows /\
      length rows = length ds /\
      forall i d, nth_error ds i = Some d ->
                  nth_error rows i = Some (vector d)) /\
  forall w2 : World',
    snapshot (self (snd (build_index ds w2)))
    = snapshot (self (snd (build_index ds w))).
Proof.
  intros _. rewrite build_index_run.
  split; [reflexivity|]. split; [reflexivity|]. split; [reflexivity|].
  split.
  - exists (map vector ds). split; [reflexivity|]. split.
    + apply length_map.
    + intros i d Hd. apply map_nth_error, Hd.
  - intros w2. rewrite build_index_run. reflexivity.
Qed.

(** C7.  When the descriptors at positions [i < j] of the input have the
    same vector, the reverse lookup maps that vector to the last position
    [k] that holds it: [k] is [j] or later, never [i], and it is [j] when
    no position after [j] holds the vector.  Both descriptors resolve to
    that one row, and the cache still holds both, each at its own
    position. *)
Theorem reverse_lookup_last_wins (ds : list Descr) (w : World')
    (i j : nat) (di dj : Descr) :
  i < j ->
  nth_error ds i = Some di ->
  nth_error ds j = Some dj ->
  vector di = vector dj ->
  exists k dk,
    j <= k /\
    nth_error ds k = Some dk /\
    vector dk = vector dj /\
    (forall k' dk', k < k' -> nth_error ds k' = Some dk' ->
                    vector dk' <> vector dj) /\
    dict_get (_descr2index (self (snd (build_index ds w)))) (vector di)
      = Some k /\
    dict_get (_descr2index (self (snd (build_index ds w)))) (vector dj)
      = Some k /\
    ((forall k' dk', j < k' -> nth_error ds k' = Some dk' ->
                     vector dk' <> vector dj) -> k = j) /\
    nth_error (_descr_cache (self (snd (build_index ds w)))) i = Some di /\
    nth_error (_descr_cache (self (snd (build_index ds w)))) j = Some dj /\
    length (_descr_cache (self (snd (build_index ds w)))) = length ds.
Proof.
  intros Hij Hi Hj Hv. rewrite build_index_run. cbn.
  set (l := map (fun id : nat * Descr => (vector (snd id), fst id))
                (enumerate ds)).
  assert (Hjl : nth_error l j = Some (vector dj, j)).
  { unfold l. rewrite nth_error_map, (nth_error_enumerate ds j dj Hj).
    reflexivity. }
  assert (Hin : In (vector dj) (map fst l)).
  { apply in_map_iff. exists (vector dj, j). split; [reflexivity|].
    exact (nth_error_In _ _ Hjl). }
  destruct (dict_of_pairs_last_index l (vector dj) Hin)
    as (m & v & Hm & Hlater & Hget).
  assert (Hmd : exists d, nth_error ds m = Some d /\ vector d = vector dj
                          /\ v = m).
  { unfold l in Hm. rewrite nth_error_map in Hm.
    destruct (nth_error (enumerate ds) m) as [[n d]|] eqn:En; [|discriminate].
    apply nth_error_enumerate_inv in En. destruct En as [-> Hd].
    cbn in Hm. injection Hm as Hvd <-. exists d. repeat split; assumption. }
  destruct Hmd as (d & Hd & Hvd & ->).
  assert (Hjm : j <= m).
  { destruct (Nat.le_gt_cases j m) as [Hle|Hgt]; [exact Hle|].
    exfalso. exact (Hlater j (vector dj, j) Hgt Hjl eq_refl). }
  exists m, d. fold (reverse_lookup ds) in Hget.
  split; [exact Hjm|]. split; [exact Hd|]. split; [exact Hvd|].
  split.
  { intros k' dk' Hk' Hdk' Hvk'.
    apply (Hlater k' (vector dk', k') Hk'); [|exact Hvk'].
    unfold l. rewrite nth_error_map, (nth_error_enumerate ds k' dk' Hdk').
    reflexivity. }
  rewrite Hv. split; [exact Hget|]. split; [exact Hget|].
  split.
  { intros Hlast. destruct (Nat.eq_dec m j) as [E|N]; [exact E|].
    exfalso. apply (Hlast m d); [lia | exact Hd | exact Hvd]. }
  repeat split; assumption.
Qed.

End BuildIndexClaims.

(** ** The class weight *)

Lemma w1_quotient_pos (num_pos num_neg : nat) :
  0 < num_pos -> (0 < INR num_pos)%R /\ (0 <= INR num_neg)%R.
Proof.
  intros Hp. split; [apply lt_0_INR, Hp | apply pos_INR].
Qed.

Lemma gen_w1_weight_spec (num_pos num_neg : nat) :
  0 < num_pos ->
  _gen_w1_weight num_pos num_neg = Ok (spec_w1 num_pos num_neg).
Proof.
  intros Hp. unfold _gen_w1_weight, spec_w1.
  destruct num_pos as [|n]; [lia|].
  f_equal. unfold Rmax.
  destruct (Rlt_dec 1 (INR num_neg / INR (S n))),
           (Rle_dec 1 (INR num_neg / INR (S n))); lra.
Qed.

Lemma w1_quotient_le (p p' n n' : nat) :
  0 < p' -> p' <= p -> n <= n' ->
  (INR n / INR p <= INR n' / INR p')%R.
Proof.
  intros Hp' Hpp Hnn.
  assert (H1 : (0 < INR p')%R) by (apply lt_0_INR; exact Hp').
  assert (H2 : (INR p' <= INR p)%R) by (apply le_INR; exact Hpp).
  assert (H3 : (INR n <= INR n')%R) by (apply le_INR; exact Hnn).
  assert (H4 : (0 <= INR n)%R) by apply pos_INR.
  assert (H5 : (/ INR p <= / INR p')%R) by (apply Rinv_le_contravar; lra).
  assert (H6 : (0 < / INR p)%R) by (apply Rinv_0_lt_compat; lra).
  unfold Rdiv.
  apply Rle_trans with (INR n' * / INR p)%R.
  - apply Rmult_le_compat_r; lra.
  - apply Rmult_le_compat_l; lra.
Qed.

Section ClassWeightClaims.
Context {uuid_t : Type} `{Hashable uuid_t}.

#[local] Abbreviation Descr := (@DescriptorElement uuid_t).
#[local] Abbreviation World' := (@World uuid_t).

(** C4.  With at least one positive exemplar, the class weight is
    [max(1.0, num_neg / num_pos)]; it is the value of ['-w1'] in the
    parameters that [rank] hands to the trainer; it is 1 when the
    negatives do not outnumber the positives, it is the quotient, above 1,
    when they do, and it does not decrease when negatives are added or
    positives removed. *)
Theorem w1_weight_is_max (num_pos num_neg : nat) :
  0 < num_pos ->
  _gen_w1_weight num_pos num_neg = Ok (spec_w1 num_pos num_neg) /\
  (forall (svm_train : svm_problem -> svm_params -> result svm_model)
          (dist : vec -> vec -> R)
          (on_none : list vec -> (vec -> vec -> R) -> result ndarray2)
          (pos neg : list Descr) (w : World'),
      length pos = num_pos -> length neg = num_neg ->
      exists params,
        svm_train_calls (snd (rank svm_train dist on_none pos neg w))
        = svm_train_calls w ++ [(spec_training_set pos neg, params)] /\
        dict_get params "-w1"%string
        = Some (PFloat (spec_w1 num_pos num_neg))) /\
  (num_neg <= num_pos -> spec_w1 num_pos num_neg = 1%R) /\
  (num_pos < num_neg ->
     spec_w1 num_pos num_neg = (INR num_neg / INR num_pos)%R /\
     (1 < spec_w1 num_pos num_neg)%R) /\
  (forall num_pos' num_neg',
      0 < num_pos' -> num_pos' <= num_pos -> num_neg <= num_neg' ->
      (spec_w1 num_pos num_neg <= spec_w1 num_pos' num_neg')%R).
Proof.
  intros Hp. destruct (w1_quotient_pos num_pos num_neg Hp) as [HP HN].
  split; [apply gen_w1_weight_spec, Hp|]. split; [|split; [|split]].
  - intros svm_train dist on_none pos neg w Hlp Hln.
    exists (dict_set SVM_TRAIN_PARAMS "-w1"%string
              (PFloat (spec_w1 num_pos num_neg))).
    split.
    + apply rank_calls. unfold _gen_svm_parameter_string.
      rewrite Hlp, Hln, gen_w1_weight_spec by exact Hp. reflexivity.
    + rewrite dict_get_set.
      destruct (key_eq_dec "-w1"%string "-w1"%string); congruence.
  - intros Hle. unfold spec_w1. apply Rmax_left.
    apply (Rmult_le_reg_r (INR num_pos)); [exact HP|].
    unfold Rdiv. rewrite Rmult_assoc, Rinv_l, Rmult_1_r, Rmult_1_l by lra.
    apply le_INR, Hle.
  - intros Hlt.
    assert (Hq : (1 < INR num_neg / INR num_pos)%R).
    { apply (Rmult_lt_reg_r (INR num_pos)); [exact HP|].
      unfold Rdiv. rewrite Rmult_assoc, Rinv_l, Rmult_1_r, Rmult_1_l by lra.
      apply lt_INR, Hlt. }
    unfold spec_w1. rewrite Rmax_right by lra. split; [reflexivity | exact Hq].
  - intros p' n' Hp' Hpp Hnn. unfold spec_w1.
    apply Rle_max_compat_l.
    apply w1_quotient_le; assumption.
Qed.

End ClassWeightClaims.

(** ** Properties of [rank] *)

Section RankClaims.
Context {uuid_t : Type} `{Hashable uuid_t}.
Variable svm_train : svm_problem -> svm_params -> result svm_model.
Variable dist : vec -> vec -> R.
Variable on_none : list vec -> (vec -> vec -> R) -> result ndarray2.

#[local] Abbreviation Descr := (@DescriptorElement uuid_t).
#[local] Abbreviation World' := (@World uuid_t).

(** A ranking call that returns on a built index has one probability per
    indexed descriptor. *)
Lemma rank_on_built (ds pos neg : list Descr) (w0 w w' : World')
    (d : dict uuid_t R) :
  self w = self (snd (build_index ds w0)) ->
  rank svm_train dist on_none pos neg w = (Ok d, w') ->
  exists params model v0 k margins,
    _gen_svm_parameter_string (length pos) (length neg) = Ok params /\
    svm_train (spec_training_set pos neg) params = Ok model /\
    nth_error (prob_x (spec_training_set pos neg)) 0 = Some v0 /\
    compute_distance_matrix on_none (svm_SVs model (length v0))
      (Some (map vector ds)) dist = Ok k /\
    numpy_dot (weights model) k = Ok margins /\
    length margins = length ds /\
    rank_probs svm_train dist on_none pos neg w
    = (Ok (platt_scaling margins (rho model 0) (probA model 0)
             (probB model 0)), w') /\
    d = dict_of_pairs
          (zip (map uuid ds)
             (platt_scaling margins (rho model 0) (probA model 0)
                (probB model 0))).
Proof.
  intros Hb Hr. apply rank_inv in Hr. destruct Hr as [probs [Hp Hd]].
  pose proof Hp as Hp'.
  apply rank_probs_inv in Hp'.
  destruct Hp' as (params & model & v0 & k & margins
                   & Hpar & Htr & Hv0 & Hk & Hdot & Hprobs & Hw).
  rewrite Hb, build_index_run in Hk, Hd.
  cbn [snd self built _descr_matrix _descr_cache] in Hk, Hd.
  destruct (numpy_dot_margin on_none dist _ _ _ _ _ Hk Hdot)
    as [_ [Hlen _]].
  rewrite length_map in Hlen.
  exists params, model, v0, k, margins. subst probs.
  repeat split; assumption.
Qed.

(** C1, as the code has it.  When [rank] returns on an index built from
    [ds], the keys of the mapping are exactly the identities of [ds],
    each once, and every member has an entry; the mapping has at most
    [count()] entries, and [count()] of them exactly when the identities
    of [ds] are pairwise distinct; every value is the probability the call
    computed for the last position of [ds] that holds the identity of its
    key; an exemplar whose identity is not indexed has no entry. *)
Theorem rank_result_keys_and_values (ds pos neg : list Descr)
    (w0 w w' : World') (d : dict uuid_t R) :
  self w = self (snd (build_index ds w0)) ->
  rank svm_train dist on_none pos neg w = (Ok d, w') ->
  (forall k, In k (dict_keys d) <-> In k (map uuid ds)) /\
  NoDup (dict_keys d) /\
  (forall e, In e ds -> exists p, dict_get d (uuid e) = Some p) /\
  (exists n, fst (count w) = Ok n /\
             dict_len d <= n /\
             (NoDup (map uuid ds) <-> dict_len d = n)) /\
  (exists probs,
      rank_probs svm_train dist on_none pos neg w = (Ok probs, w') /\
      length probs = length ds /\
      forall k p, dict_get d k = Some p ->
        exists i di,
          nth_error ds i = Some di /\
          uuid di = k /\
          nth_error probs i = Some p /\
          forall j dj, i < j -> nth_error ds j = Some dj -> uuid dj <> k) /\
  (forall e, In e (pos ++ neg) -> ~ In (uuid e) (map uuid ds) ->
             dict_get d (uuid e) = None).
Proof.
  intros Hb Hr.
  apply (rank_on_built ds pos neg w0 w w' d Hb) in Hr.
  destruct Hr as (params & model & v0 & k & margins
                  & _ & _ & _ & _ & _ & Hlen & Hprobs & ->).
  set (probs := platt_scaling margins (rho model 0) (probA model 0)
                  (probB model 0)) in *.
  assert (Hlp : length (map uuid ds) = length probs)
    by (unfold probs, platt_scaling; rewrite !length_map; lia).
  assert (Hkeys : forall k0, In k0 (dict_keys (dict_of_pairs
                               (zip (map uuid ds) probs)))
                             <-> In k0 (map uuid ds)).
  { intros k0. rewrite dict_of_pairs_keys. unfold zip.
    rewrite map_fst_combine by exact Hlp. tauto. }
  assert (Hzip : length (zip (map uuid ds) probs) = length ds).
  { unfold zip. rewrite length_combine, <- Hlp, length_map. lia. }
  split; [exact Hkeys|]. split; [apply dict_of_pairs_NoDup|].
  split; [|split; [|split]].
  - intros e He. apply dict_in_keys_get, Hkeys, in_map, He.
  - exists (length ds). split.
    { unfold count. run_monad. rewrite Hb, build_index_run. reflexivity. }
    split; [rewrite <- Hzip; apply dict_of_pairs_len_le|].
    rewrite <- Hzip. split.
    + intros ND. apply dict_of_pairs_len_NoDup.
      unfold zip. rewrite map_fst_combine by exact Hlp. exact ND.
    + intros Hd. apply dict_of_pairs_len_distinct in Hd.
      unfold zip in Hd. rewrite map_fst_combine in Hd by exact Hlp.
      exact Hd.
  - exists probs. split; [exact Hprobs|].
    split; [rewrite <- Hlp; apply length_map|].
    intros k0 p Hget.
    assert (Hin : In k0 (map fst (zip (map uuid ds) probs))).
    { apply dict_of_pairs_keys. exact (dict_get_in_keys _ _ _ Hget). }
    destruct (dict_of_pairs_last_index _ k0 Hin)
      as (m & v & Hm & Hlater & Hget').
    rewrite Hget in Hget'. injection Hget' as <-.
    unfold zip in Hm. apply nth_error_combine_inv in Hm.
    cbn [fst snd] in Hm. destruct Hm as [Hmk Hmp].
    rewrite nth_error_map in Hmk.
    destruct (nth_error ds m) as [dm|] eqn:Edm; [|discriminate Hmk].
    injection Hmk as Hmk.
    exists m, dm. repeat (split; [assumption || reflexivity|]).
    intros j dj Hmj Hdj Huj.
    assert (Hjl : j < length probs).
    { rewrite <- Hlp, length_map. apply nth_error_Some. congruence. }
    apply (Hlater j (uuid dj, nth j probs 0%R) Hmj); [|exact Huj].
    apply nth_error_combine;
      [apply map_nth_error, Hdj | apply nth_error_nth', Hjl].
  - intros e _ Hnin. apply dict_get_of_pairs_none. unfold zip.
    rewrite map_fst_combine by exact Hlp. exact Hnin.
Qed.

(** C3, as the code has it.  With no positive exemplar, [rank] raises
    [ZeroDivisionError], from the division by the number of positives in
    the class weight, and the world is left as it was: nothing is added
    to the record of trainer calls, so the trainer has not been
    invoked. *)
Theorem rank_no_positives_raises (neg : list Descr) (w : World') :
  _gen_w1_weight 0 (length neg) = Raise ZeroDivisionError /\
  rank svm_train dist on_none [] neg w = (Raise ZeroDivisionError, w) /\
  svm_train_calls (snd (rank svm_train dist on_none [] neg w))
  = svm_train_calls w.
Proof.
  split; [reflexivity|].
  assert (Hr : rank svm_train dist on_none [] neg w
               = (Raise ZeroDivisionError, w)).
  { unfold rank, rank_probs. cbn [length].
    unfold _gen_svm_parameter_string, _gen_w1_weight. run_monad.
    reflexivity. }
  split; [exact Hr | rewrite Hr; reflexivity].
Qed.

(** C5, as the code has it.  When [rank] returns on an index built from
    [ds], the probability of the item at position [i] is the formula of the
    specification at the raw margin of that item, and the raw margin is
    the dot product of the coefficients the trained model lists with the
    kernel values between the model's support vectors and the item; [rho],
    [probA] and [probB] are read from the trained model; the model lists
    as many coefficients as its classes declare support vectors; and the
    probability is the value the mapping gives to the item's identity when
    no later item shares that identity. *)
Theorem rank_probability_formula (ds pos neg : list Descr)
    (w0 w w' : World') (d : dict uuid_t R) :
  self w = self (snd (build_index ds w0)) ->
  rank svm_train dist on_none pos neg w = (Ok d, w') ->
  exists params model v0 probs,
    _gen_svm_parameter_string (length pos) (length neg) = Ok params /\
    svm_train (spec_training_set pos neg) params = Ok model /\
    nth_error (prob_x (spec_training_set pos neg)) 0 = Some v0 /\
    rank_probs svm_train dist on_none pos neg w = (Ok probs, w') /\
    length probs = length ds /\
    length (concat (sv_coef model))
    = list_sum (map (nSV model) (seq 0 (nr_class model))) /\
    forall i di, nth_error ds i = Some di ->
      nth_error probs i
      = Some (spec_probability
                (spec_model_margin dist model (length v0) (vector di))
                (rho model 0) (probA model 0) (probB model 0)) /\
      ((forall j dj, i < j -> nth_error ds j = Some dj ->
                     uuid dj <> uuid di) ->
       dict_get d (uuid di)
       = Some (spec_probability
                 (spec_model_margin dist model (length v0) (vector di))
                 (rho model 0) (probA model 0) (probB model 0))).
Proof.
  intros Hb Hr.
  apply (rank_on_built ds pos neg w0 w w' d Hb) in Hr.
  destruct Hr as (params & model & v0 & k & margins
                  & Hpar & Htr & Hv0 & Hk & Hdot & Hlen & Hp & ->).
  destruct (numpy_dot_margin on_none dist _ _ _ _ _ Hk Hdot)
    as [Hw [_ Hm]].
  rewrite length_svm_SVs in Hw.
  exists params, model, v0,
    (platt_scaling margins (rho model 0) (probA model 0) (probB model 0)).
  repeat (split; [assumption|]).
  split; [unfold platt_scaling; rewrite length_map; exact Hlen|].
  split; [exact Hw|].
  intros i di Hi.
  assert (Hil : i < length ds) by (apply nth_error_Some; congruence).
  specialize (Hm i). rewrite length_map in Hm. specialize (Hm Hil).
  rewrite (nth_indep _ [] (vector di)) in Hm
    by (rewrite length_map; exact Hil).
  rewrite map_nth, (nth_error_nth _ _ _ Hi) in Hm.
  rewrite (spec_margin_of_model dist model (length v0) (vector di) Hw)
    in Hm.
  assert (Hnth : nth_error (platt_scaling margins (rho model 0)
                              (probA model 0) (probB model 0)) i
                 = Some (spec_probability
                           (spec_model_margin dist model (length v0)
                              (vector di))
                           (rho model 0) (probA model 0) (probB model 0))).
  { rewrite <- Hm, <- platt_scaling_nth by lia.
    apply nth_error_nth'. unfold platt_scaling. rewrite length_map. lia. }
  split; [exact Hnth|].
  intros Hlast. apply dict_of_pairs_nth with (i := i).
  - apply nth_error_combine; [apply map_nth_error, Hi | exact Hnth].
  - intros j [u q] Hij Hj Hu. cbn in Hu. subst u.
    unfold zip in Hj. apply nth_error_combine_inv in Hj.
    destruct Hj as [Hjk _]. cbn [fst] in Hjk.
    rewrite nth_error_map in Hjk.
    destruct (nth_error ds j) as [dj|] eqn:Edj; [|discriminate].
    injection Hjk as Hjk. exact (Hlast j dj Hij Edj Hjk).
Qed.

(** C8.  Whatever its outcome, [rank] leaves the instance as it found
    it: the descriptor cache, the matrix of vectors and the reverse
    lookup are those of before the call. *)
Theorem rank_leaves_snapshot (pos neg : list Descr) (w : World') :
  self (snd (rank svm_train dist on_none pos neg w)) = self w /\
  snapshot (self (snd (rank svm_train dist on_none pos neg w)))
  = snapshot (self w).
Proof.
  pose proof (rank_self svm_train dist on_none pos neg w) as Hs.
  split; [exact Hs | rewrite Hs; reflexivity].
Qed.

(** C9.  Two executions of [rank] on the same exemplars, from two worlds
    that hold the same snapshot, have the same outcome: the same mapping,
    or the same exception. *)
Theorem rank_deterministic (pos neg : list Descr) (w1 w2 : World') :
  snapshot (self w1) = snapshot (self w2) ->
  fst (rank svm_train dist on_none pos neg w1)
  = fst (rank svm_train dist on_none pos neg w2).
Proof.
  unfold snapshot. intros Hs. injection Hs as Hc Hm _.
  rewrite !rank_fst,
    (rank_probs_result svm_train dist on_none pos neg w1 w2 Hm), Hc.
  reflexivity.
Qed.

End RankClaims.

(** ** The definitions at work on the small index *)

Section Runs.

(** C1, the claim as stated fails: the index built from [Example.d_a]
    given twice counts two descriptors, and the mapping [rank] returns on
    it has one entry. *)
Lemma rank_size_below_count :
  exists d w',
    Example.rank [Example.d_a] [Example.d_b] Example.index_aa = (Ok d, w') /\
    fst (count Example.index_aa) = Ok 2 /\
    dict_len d = 1 /\
    Ok (dict_len d) <> fst (count Example.index_aa).
Proof.
  eexists. eexists. split; [reflexivity|].
  split; [reflexivity|]. split; [reflexivity|].
  cbn. discriminate.
Qed.

Lemma rank_result_keys_and_values_witness :
  exists d w',
    Example.rank [Example.d_a] [Example.d_b] Example.index_ab = (Ok d, w') /\
    (forall k, In k (dict_keys d)
               <-> In k (map uuid [Example.d_a; Example.d_b])) /\
    NoDup (dict_keys d) /\
    (forall e, In e [Example.d_a; Example.d_b] ->
               exists p, dict_get d (uuid e) = Some p) /\
    (exists n, fst (count Example.index_ab) = Ok n /\
               dict_len d <= n /\
               (NoDup (map uuid [Example.d_a; Example.d_b]) <->
                dict_len d = n)) /\
    (exists probs,
        rank_probs Example.train Example.histogram_intersection
          Example.on_none [Example.d_a] [Example.d_b] Example.index_ab
        = (Ok probs, w') /\
        length probs = length [Example.d_a; Example.d_b] /\
        forall k p, dict_get d k = Some p ->
          exists i di,
            nth_error [Example.d_a; Example.d_b] i = Some di /\
            uuid di = k /\
            nth_error probs i = Some p /\
            forall j dj, i < j ->
              nth_error [Example.d_a; Example.d_b] j = Some dj ->
              uuid dj <> k) /\
    (forall e, In e ([Example.d_a] ++ [Example.d_b]) ->
               ~ In (uuid e) (map uuid [Example.d_a; Example.d_b]) ->
               dict_get d (uuid e) = None).
Proof.
  eexists. eexists.
  refine ((fun Hr =>
             conj Hr (rank_result_keys_and_values Example.train
                        Example.histogram_intersection Example.on_none
                        [Example.d_a; Example.d_b] [Example.d_a] [Example.d_b]
                        Example.fresh Example.index_ab _ _ eq_refl Hr)) _).
  reflexivity.
Defined.

(** C3, the claim as stated fails: with no positive exemplar the
    exception [rank] raises is [ZeroDivisionError], which is not an
    [InsufficientExemplarsError]. *)
Lemma rank_no_positives_error_class :
  fst (Example.rank [] [Example.d_b] Example.index_ab)
  = Raise "ZeroDivisionError"%string /\
  fst (Example.rank [] [Example.d_b] Example.index_ab)
  <> Raise "InsufficientExemplarsError"%string.
Proof.
  split; [reflexivity|].
  intros E. vm_compute in E. discriminate E.
Qed.

Lemma w1_weight_is_max_witness :
  0 < 1 /\
  _gen_w1_weight 1 3 = Ok (spec_w1 1 3) /\
  (forall (svm_train : svm_problem -> svm_params -> result svm_model)
          (dist : vec -> vec -> R)
          (on_none : list vec -> (vec -> vec -> R) -> result ndarray2)
          (pos neg : list (@DescriptorElement string)) (w : @World string),
      length pos = 1 -> length neg = 3 ->
      exists params,
        svm_train_calls (snd (rank svm_train dist on_none pos neg w))
        = svm_train_calls w ++ [(spec_training_set pos neg, params)] /\
        dict_get params "-w1"%string = Some (PFloat (spec_w1 1 3))) /\
  (3 <= 1 -> spec_w1 1 3 = 1%R) /\
  (1 < 3 -> spec_w1 1 3 = (INR 3 / INR 1)%R /\ (1 < spec_w1 1 3)%R) /\
  (forall num_pos' num_neg',
      0 < num_pos' -> num_pos' <= 1 -> 3 <= num_neg' ->
      (spec_w1 1 3 <= spec_w1 num_pos' num_neg')%R).
Proof.
  split; [lia|]. apply (w1_weight_is_max 1 3). lia.
Defined.

Lemma rank_probability_formula_witness :
  exists d w' params model v0 probs,
    Example.rank [Example.d_a] [Example.d_b] Example.index_ab = (Ok d, w') /\
    _gen_svm_parameter_string 1 1 = Ok params /\
    Example.train (spec_training_set [Example.d_a] [Example.d_b]) params
    = Ok model /\
    nth_error (prob_x (spec_training_set [Example.d_a] [Example.d_b])) 0
    = Some v0 /\
    rank_probs Example.train Example.histogram_intersection Example.on_none
      [Example.d_a] [Example.d_b] Example.index_ab = (Ok probs, w') /\
    length probs = 2 /\
    length (concat (sv_coef model))
    = list_sum (map (nSV model) (seq 0 (nr_class model))) /\
    forall i di, nth_error [Example.d_a; Example.d_b] i = Some di ->
      nth_error probs i
      = Some (spec_probability
                (spec_model_margin Example.histogram_intersection model
                   (length v0) (vector di))
                (rho model 0) (probA model 0) (probB model 0)) /\
      ((forall j dj, i < j ->
                     nth_error [Example.d_a; Example.d_b] j = Some dj ->
                     uuid dj <> uuid di) ->
       dict_get d (uuid di)
       = Some (spec_probability
                 (spec_model_margin Example.histogram_intersection model
                    (length v0) (vector di))
                 (rho model 0) (probA model 0) (probB model 0))).
Proof.
  eexists. eexists.
  refine ((fun Hr =>
             match rank_probability_formula Example.train
                     Example.histogram_intersection Example.on_none
                     [Example.d_a; Example.d_b] [Example.d_a] [Example.d_b]
                     Example.fresh Example.index_ab _ _ eq_refl Hr
             with
             | ex_intro _ params
                 (ex_intro _ model (ex_intro _ v0 (ex_intro _ probs Hc))) =>
                 ex_intro _ params
                   (ex_intro _ model
                      (ex_intro _ v0 (ex_intro _ probs (conj Hr Hc))))
             end) _).
  reflexivity.
Defined.

Lemma build_index_replaces_snapshot_witness :
  [Example.d_a; Example.d_b] <> [] /\
  fst (build_index [Example.d_a; Example.d_b] Example.index_aa) = Ok tt /\
  fst (count (snd (build_index [Example.d_a; Example.d_b] Example.index_aa)))
  = Ok 2 /\
  _descr_cache
    (self (snd (build_index [Example.d_a; Example.d_b] Example.index_aa)))
  = [Example.d_a; Example.d_b] /\
  (exists rows,
      _descr_matrix
        (self (snd (build_index [Example.d_a; Example.d_b] Example.index_aa)))
      = Some rows /\
      length rows = 2 /\
      forall i d, nth_error [Example.d_a; Example.d_b] i = Some d ->
                  nth_error rows i = Some (vector d)) /\
  forall w2 : @World string,
    snapshot (self (snd (build_index [Example.d_a; Example.d_b] w2)))
    = snapshot
        (self (snd (build_index [Example.d_a; Example.d_b] Example.index_aa))).
Proof.
  assert (Hne : [Example.d_a; Example.d_b] <> []) by discriminate.
  split; [exact Hne|].
  exact (build_index_replaces_snapshot [Example.d_a; Example.d_b]
           Example.index_aa Hne).
Defined.

Lemma reverse_lookup_last_wins_witness :
  0 < 1 /\
  vector Example.d_a = vector Example.d_c /\
  exists k dk,
    1 <= k /\
    nth_error [Example.d_a; Example.d_c; Example.d_b] k = Some dk /\
    vector dk = vector Example.d_c /\
    (forall k' dk', k < k' ->
       nth_error [Example.d_a; Example.d_c; Example.d_b] k' = Some dk' ->
       vector dk' <> vector Example.d_c) /\
    dict_get
      (_descr2index
         (self (snd (build_index [Example.d_a; Example.d_c; Example.d_b]
                       Example.fresh))))
      (vector Example.d_a) = Some k /\
    dict_get
      (_descr2index
         (self (snd (build_index [Example.d_a; Example.d_c; Example.d_b]
                       Example.fresh))))
      (vector Example.d_c) = Some k /\
    ((forall k' dk', 1 < k' ->
        nth_error [Example.d_a; Example.d_c; Example.d_b] k' = Some dk' ->
        vector dk' <> vector Example.d_c) -> k = 1) /\
    nth_error
      (_descr_cache
         (self (snd (build_index [Example.d_a; Example.d_c; Example.d_b]
                       Example.fresh)))) 0 = Some Example.d_a /\
    nth_error
      (_descr_cache
         (self (snd (build_index [Example.d_a; Example.d_c; Example.d_b]
                       Example.fresh)))) 1 = Some Example.d_c /\
    length
      (_descr_cache
         (self (snd (build_index [Example.d_a; Example.d_c; Example.d_b]
                       Example.fresh)))) = 3.
Proof.
  split; [lia|]. split; [reflexivity|].
  apply (reverse_lookup_last_wins [Example.d_a; Example.d_c; Example.d_b]
           Example.fresh 0 1 Example.d_a Example.d_c).
  - lia.
  - reflexivity.
  - reflexivity.
  - reflexivity.
Defined.

Lemma rank_deterministic_witness :
  snapshot (self Example.index_ab)
  = snapshot
      (self (snd (Example.rank [Example.d_a] [Example.d_b] Example.index_ab)))
  /\
  fst (Example.rank [Example.d_a] [Example.d_b] Example.index_ab)
  = fst (Example.rank [Example.d_a] [Example.d_b]
           (snd (Example.rank [Example.d_a] [Example.d_b] Example.index_ab))).
Proof.
  assert (Hs : snapshot (self Example.index_ab)
               = snapshot
                   (self (snd (Example.rank [Example.d_a] [Example.d_b]
                                 Example.index_ab)))) by reflexivity.
  split; [exact Hs|].
  exact (rank_deterministic Example.train Example.histogram_intersection
           Example.on_none
           [Example.d_a] [Example.d_b] _ _ Hs).
Defined.

End Runs.

(** ** Further properties: the trainer's parameters *)

(** X1.  [_gen_svm_parameter_string] raises [ZeroDivisionError] exactly
    when there is no positive exemplar.  Otherwise it returns the entries
    of [SVM_TRAIN_PARAMS] unchanged and in their order, among them the
    kernel selector ['-t'] 5 and the probability flag ['-b'] 1, followed by
    the one new key ['-w1'], whose value is at least 1. *)
Theorem gen_svm_parameter_string_outcome (num_pos num_neg : nat) :
  (num_pos = 0 <->
   _gen_svm_parameter_string num_pos num_neg = Raise ZeroDivisionError) /\
  (0 < num_pos ->
   exists w1 params,
     _gen_w1_weight num_pos num_neg = Ok w1 /\
     (1 <= w1)%R /\
     _gen_svm_parameter_string num_pos num_neg = Ok params /\
     dict_keys params = dict_keys SVM_TRAIN_PARAMS ++ ["-w1"%string] /\
     dict_get params "-w1"%string = Some (PFloat w1) /\
     dict_get params "-t"%string = Some (PInt 5) /\
     dict_get params "-b"%string = Some (PInt 1) /\
     forall k, k <> "-w1"%string ->
               dict_get params k = dict_get SVM_TRAIN_PARAMS k).
Proof.
  split.
  - unfold _gen_svm_parameter_string, _gen_w1_weight.
    destruct num_pos as [|n]; split; intros E;
      [reflexivity | reflexivity | discriminate E | discriminate E].
  - intros Hp.
    exists (spec_w1 num_pos num_neg),
      (dict_set SVM_TRAIN_PARAMS "-w1"%string
         (PFloat (spec_w1 num_pos num_neg))).
    split; [apply gen_w1_weight_spec, Hp|].
    split; [unfold spec_w1; apply Rmax_l|].
    split; [unfold _gen_svm_parameter_string;
            rewrite gen_w1_weight_spec by exact Hp; reflexivity|].
    split; [reflexivity|].
    split; [rewrite dict_get_set;
            destruct (key_eq_dec "-w1"%string "-w1"%string); congruence|].
    split; [reflexivity|]. split; [reflexivity|].
    intros k Hk. rewrite dict_get_set.
    destruct (key_eq_dec k "-w1"%string); [contradiction | reflexivity].
Qed.

(** ** Further properties: the reverse lookup of [build_index] *)

Lemma map_snd_combine {A B} (a : list A) (b : list B) :
  length a = length b -> map snd (combine a b) = b.
Proof.
  revert b. induction a as [|a0 a IH]; intros [|b0 b]; simpl;
    try discriminate; [reflexivity|].
  intros [= Hlen]. rewrite IH by exact Hlen. reflexivity.
Qed.

Section ReverseLookup.
Context {uuid_t : Type} `{Hashable uuid_t}.

#[local] Abbreviation Descr := (@DescriptorElement uuid_t).
#[local] Abbreviation World' := (@World uuid_t).

Lemma reverse_lookup_pairs_keys (ds : list Descr) :
  map fst (map (fun id : nat * Descr => (vector (snd id), fst id))
             (enumerate ds))
  = map vector ds.
Proof.
  rewrite map_map. cbn [fst].
  rewrite <- (map_map snd vector). unfold enumerate.
  rewrite map_snd_combine by apply length_seq. reflexivity.
Qed.

Lemma reverse_lookup_pairs_nth (ds : list Descr) (m : nat) (v : vec)
    (k : nat) :
  nth_error (map (fun id : nat * Descr => (vector (snd id), fst id))
               (enumerate ds)) m = Some (v, k) ->
  k = m /\ exists d, nth_error ds m = Some d /\ vector d = v.
Proof.
  rewrite nth_error_map.
  destruct (nth_error (enumerate ds) m) as [[n d]|] eqn:En; [|discriminate].
  apply nth_error_enumerate_inv in En. destruct En as [-> Hd].
  cbn. intros [= <- <-]. split; [reflexivity|]. exists d. split;
    [exact Hd | reflexivity].
Qed.

(** X2.  After [build_index(ds)], every entry of the reverse lookup is a
    valid row position: it is below [count()], the matrix row at that
    position is the vector that keys the entry, and so is the vector of the
    cached descriptor at that position. *)
Theorem reverse_lookup_points_at_rows (ds : list Descr) (w : World')
    (v : vec) (k : nat) :
  dict_get (_descr2index (self (snd (build_index ds w)))) v = Some k ->
  fst (count (snd (build_index ds w))) = Ok (length ds) /\
  k < length ds /\
  (exists rows,
      _descr_matrix (self (snd (build_index ds w))) = Some rows /\
      nth_error rows k = Some v) /\
  exists d,
    nth_error (_descr_cache (self (snd (build_index ds w)))) k = Some d /\
    vector d = v.
Proof.
  rewrite build_index_run. cbn. unfold reverse_lookup. intros Hget.
  assert (Hin : In v (map fst (map (fun id : nat * Descr =>
                                      (vector (snd id), fst id))
                                   (enumerate ds)))).
  { apply dict_of_pairs_keys. exact (dict_get_in_keys _ _ _ Hget). }
  destruct (dict_of_pairs_last_index _ v Hin) as (m & k' & Hm & _ & Hget').
  rewrite Hget in Hget'. injection Hget' as <-.
  apply reverse_lookup_pairs_nth in Hm.
  destruct Hm as [-> (d & Hd & Hv)].
  split; [reflexivity|].
  split; [apply nth_error_Some; congruence|].
  split.
  - exists (map vector ds). split; [reflexivity|].
    rewrite nth_error_map, Hd. cbn. congruence.
  - exists d. split; assumption.
Qed.

(** X3.  After [build_index(ds)], the reverse lookup has an entry for a
    vector exactly when some descriptor of [ds] has that vector; the lookup
    of any other vector finds nothing. *)
Theorem reverse_lookup_domain (ds : list Descr) (w : World') (v : vec) :
  (In v (map vector ds) <->
   exists k, dict_get (_descr2index (self (snd (build_index ds w)))) v
             = Some k) /\
  (~ In v (map vector ds) ->
   dict_get (_descr2index (self (snd (build_index ds w)))) v = None).
Proof.
  rewrite build_index_run. cbn. unfold reverse_lookup.
  split; [split|].
  - intros Hin. apply dict_in_keys_get, dict_of_pairs_keys.
    rewrite reverse_lookup_pairs_keys. exact Hin.
  - intros [k Hk]. rewrite <- reverse_lookup_pairs_keys.
    apply dict_of_pairs_keys. exact (dict_get_in_keys _ _ _ Hk).
  - intros Hnin. apply dict_get_of_pairs_none.
    rewrite reverse_lookup_pairs_keys. exact Hnin.
Qed.

(** X4.  When the vectors of [ds] are pairwise distinct, the reverse lookup
    built by [build_index(ds)] inverts the matrix: the vector of the
    descriptor at position [i] is mapped to [i], and the lookup has as many
    entries as [count()]. *)
Theorem reverse_lookup_inverts_rows (ds : list Descr) (w : World') :
  NoDup (map vector ds) ->
  (forall i d, nth_error ds i = Some d ->
     dict_get (_descr2index (self (snd (build_index ds w)))) (vector d)
     = Some i) /\
  fst (count (snd (build_index ds w)))
  = Ok (dict_len (_descr2index (self (snd (build_index ds w))))).
Proof.
  intros ND. rewrite build_index_run. cbn. unfold reverse_lookup.
  set (l := map (fun id : nat * Descr => (vector (snd id), fst id))
                (enumerate ds)).
  assert (Hkeys : map fst l = map vector ds)
    by apply reverse_lookup_pairs_keys.
  split.
  - intros i d Hd. apply dict_of_pairs_nth with (i := i).
    + unfold l. rewrite nth_error_map, (nth_error_enumerate ds i d Hd).
      reflexivity.
    + intros j [v k] Hij Hj Hv. cbn in Hv. subst v.
      assert (Hi' : nth_error (map fst l) i = Some (vector d)).
      { rewrite Hkeys, nth_error_map, Hd. reflexivity. }
      assert (Hj' : nth_error (map fst l) j = Some (vector d)).
      { rewrite nth_error_map, Hj. reflexivity. }
      rewrite <- Hkeys in ND.
      assert (Hlt : i < length (map fst l))
        by (apply nth_error_Some; congruence).
      pose proof (proj1 (NoDup_nth_error (map fst l)) ND i j Hlt) as Heq.
      rewrite Hi', Hj' in Heq. specialize (Heq eq_refl). lia.
  - assert (Hlen : dict_len (dict_of_pairs l) = length ds).
    { rewrite dict_of_pairs_len_NoDup by (rewrite Hkeys; exact ND).
      unfold l, enumerate.
      rewrite length_map, length_combine, length_seq, Nat.min_id.
      reflexivity. }
    f_equal. symmetry. exact Hlen.
Qed.

End ReverseLookup.

(** ** Further properties: the outcomes of [rank] *)

Lemma constant_labels {A B} (c : Z) (f : A -> B) (l : list A) :
  map (fun _ => c) l = map (fun _ => c) (map f l).
Proof. rewrite map_map. reflexivity. Qed.

Lemma nth_error_combine_fst {A B} (a : list A) (b : list B) (j : nat)
    (kv : A * B) :
  nth_error (combine a b) j = Some kv -> nth_error a j = Some (fst kv).
Proof.
  revert b j. induction a as [|a0 a IH]; intros [|b0 b] [|j]; simpl;
    try discriminate.
  - intros [= <-]. reflexivity.
  - apply IH.
Qed.

Section DictZip.
Context {K V : Type} `{Hashable K}.

(** With pairwise distinct keys, [dict(zip(keys, values))] maps the key at
    a position to the value at that position. *)
Lemma dict_zip_get (keys : list K) (values : list V) (i : nat)
    (k : K) (v : V) :
  NoDup keys ->
  nth_error keys i = Some k ->
  nth_error values i = Some v ->
  dict_get (dict_of_pairs (zip keys values)) k = Some v.
Proof.
  intros ND Hk Hv. apply dict_of_pairs_nth with (i := i).
  - apply nth_error_combine; assumption.
  - intros j kv Hij Hj Hfst. apply nth_error_combine_fst in Hj.
    rewrite Hfst, <- Hk in Hj.
    assert (Hlt : j < length keys) by (apply nth_error_Some; congruence).
    pose proof (proj1 (NoDup_nth_error keys) ND j i Hlt Hj). lia.
Qed.

End DictZip.

Section RankOutcomes.
Context {uuid_t : Type} `{Hashable uuid_t}.
Variable svm_train : svm_problem -> svm_params -> result svm_model.
Variable dist : vec -> vec -> R.
Variable on_none : list vec -> (vec -> vec -> R) -> result ndarray2.

#[local] Abbreviation Descr := (@DescriptorElement uuid_t).
#[local] Abbreviation World' := (@World uuid_t).

(** The world after a trainer call. *)
#[local] Abbreviation trained w pos neg params :=
  {| self := self w;
     svm_train_calls :=
       svm_train_calls w ++ [(spec_training_set pos neg, params)] |}.

(** [rank_probs], stage by stage. *)
Lemma rank_probs_cases (pos neg : list Descr) (w : World') :
  rank_probs svm_train dist on_none pos neg w
  = match _gen_svm_parameter_string (length pos) (length neg) with
    | Raise e => (Raise e, w)
    | Ok params =>
        match svm_train (spec_training_set pos neg) params with
        | Raise e => (Raise e, trained w pos neg params)
        | Ok model =>
            match map vector pos ++ map vector neg with
            | [] => (Raise IndexError, trained w pos neg params)
            | v0 :: _ =>
                match compute_distance_matrix on_none
                        (svm_SVs model (length v0))
                        (_descr_matrix (self w)) dist with
                | Raise e => (Raise e, trained w pos neg params)
                | Ok k =>
                    match numpy_dot (weights model) k with
                    | Raise e => (Raise e, trained w pos neg params)
                    | Ok margins =>
                        (Ok (platt_scaling margins (rho model 0)
                               (probA model 0) (probB model 0)),
                         trained w pos neg params)
                    end
                end
            end
        end
    end.
Proof.
  unfold rank_probs. rewrite training_set_spec, !append_exemplars_spec.
  run_monad.
  destruct (_gen_svm_parameter_string (length pos) (length neg));
    [|reflexivity].
  run_monad. destruct (svm_train _ _); [|reflexivity].
  change (([] ++ map vector pos) ++ map vector neg)
    with (map vector pos ++ map vector neg).
  destruct (map vector pos ++ map vector neg); [reflexivity|].
  run_monad. destruct (compute_distance_matrix _ _ _); [|reflexivity].
  destruct (numpy_dot _ _); reflexivity.
Qed.

(** X7.  An exception of the trainer is the exception of [rank]: the
    trainer has been invoked once, with the training set and the generated
    parameters, it is not invoked again, and the instance is as before. *)
Theorem rank_trainer_failure_propagates (pos neg : list Descr) (w : World')
    (params : svm_params) (e : exn) :
  _gen_svm_parameter_string (length pos) (length neg) = Ok params ->
  svm_train (spec_training_set pos neg) params = Raise e ->
  rank svm_train dist on_none pos neg w
  = (Raise e,
     {| self := self w;
        svm_train_calls :=
          svm_train_calls w ++ [(spec_training_set pos neg, params)] |}).
Proof.
  intros Hpar Htr. unfold rank. unfold bind at 1.
  rewrite rank_probs_cases, Hpar, Htr. reflexivity.
Qed.

(** X8.  [rank] reads the exemplars through their vectors only: two calls
    whose positive exemplars have the same vectors in the same order, and
    likewise the negative ones, have the same outcome and leave the same
    world, whatever the identities of the exemplars. *)
Theorem rank_reads_exemplar_vectors_only (pos neg pos' neg' : list Descr)
    (w : World') :
  map vector pos = map vector pos' ->
  map vector neg = map vector neg' ->
  rank svm_train dist on_none pos neg w
  = rank svm_train dist on_none pos' neg' w.
Proof.
  intros Hp Hn.
  assert (Hlp : length pos = length pos')
    by (rewrite <- (length_map vector pos), Hp; apply length_map).
  assert (Hln : length neg = length neg')
    by (rewrite <- (length_map vector neg), Hn; apply length_map).
  assert (Hts : spec_training_set pos neg = spec_training_set pos' neg').
  { unfold spec_training_set.
    rewrite (constant_labels 1 vector pos), (constant_labels (-1) vector neg),
      (constant_labels 1 vector pos'), (constant_labels (-1) vector neg'),
      Hp, Hn.
    reflexivity. }
  unfold rank. unfold bind at 1. unfold bind at 2.
  rewrite !rank_probs_cases, Hlp, Hln, Hts, Hp, Hn. reflexivity.
Qed.

(** The score of an indexed descriptor is a function of its vector. *)
Lemma rank_score_function (ds pos neg : list Descr) (w0 w w' : World')
    (d : dict uuid_t R) :
  self w = self (snd (build_index ds w0)) ->
  rank svm_train dist on_none pos neg w = (Ok d, w') ->
  NoDup (map uuid ds) ->
  exists score : vec -> R,
    forall di, In di ds -> dict_get d (uuid di) = Some (score (vector di)).
Proof.
  intros Hb Hr ND. apply (rank_on_built _ _ _ ds pos neg w0 w w' d Hb) in Hr.
  destruct Hr as (params & model & v0 & k & margins
                  & _ & _ & _ & Hk & Hdot & Hlen & _ & ->).
  exists (fun v => spec_probability
                     (spec_margin dist (weights model)
                        (svm_SVs model (length v0)) v)
                     (rho model 0) (probA model 0) (probB model 0)).
  intros di Hin. apply In_nth_error in Hin. destruct Hin as [i Hi].
  assert (Hil : i < length ds) by (apply nth_error_Some; congruence).
  destruct (numpy_dot_margin on_none dist _ _ _ _ _ Hk Hdot) as [_ [_ Hm]].
  specialize (Hm i). rewrite length_map in Hm. specialize (Hm Hil).
  rewrite (nth_indep _ [] (vector di)) in Hm
    by (rewrite length_map; exact Hil).
  rewrite map_nth, (nth_error_nth _ _ _ Hi) in Hm.
  apply dict_zip_get with (i := i); [exact ND | apply map_nth_error, Hi|].
  rewrite <- Hm, <- platt_scaling_nth by lia.
  apply nth_error_nth'. unfold platt_scaling. rewrite length_map. lia.
Qed.

(** X9.  On an index whose descriptors have pairwise distinct identities,
    two indexed descriptors with the same vector receive the same score. *)
Theorem rank_equal_vectors_equal_scores (ds pos neg : list Descr)
    (w0 w w' : World') (d : dict uuid_t R) (di dj : Descr) :
  self w = self (snd (build_index ds w0)) ->
  rank svm_train dist on_none pos neg w = (Ok d, w') ->
  NoDup (map uuid ds) ->
  In di ds -> In dj ds ->
  vector di = vector dj ->
  exists p, dict_get d (uuid di) = Some p /\ dict_get d (uuid dj) = Some p.
Proof.
  intros Hb Hr ND Hi Hj Hv.
  destruct (rank_score_function ds pos neg w0 w w' d Hb Hr ND)
    as [score Hscore].
  exists (score (vector di)). split; [apply Hscore, Hi|].
  rewrite Hv. apply Hscore, Hj.
Qed.

(** X14.  On an instance as [__init__] leaves it, [rank] returns no
    mapping with an entry: when it returns, the mapping is empty, whatever
    the matrix builder does with the [None] that stands for the matrix. *)
Theorem rank_before_build_returns_nothing (pos neg : list Descr)
    (w w' : World') (d : dict uuid_t R) :
  self w = init ->
  rank svm_train dist on_none pos neg w = (Ok d, w') ->
  d = dict_empty /\ fst (count w) = Ok 0.
Proof.
  intros Hi Hr. apply rank_inv in Hr. destruct Hr as [probs [_ ->]].
  unfold count. run_monad. rewrite Hi. split; reflexivity.
Qed.

End RankOutcomes.

(** ** Further properties: sequences of calls on one instance *)

Section SessionFacts.
Context {uuid_t : Type} `{Hashable uuid_t}.
Variable svm_train : svm_problem -> svm_params -> result svm_model.
Variable dist : vec -> vec -> R.
Variable on_none : list vec -> (vec -> vec -> R) -> result ndarray2.

#[local] Abbreviation Descr := (@DescriptorElement uuid_t).
#[local] Abbreviation World' := (@World uuid_t).
#[local] Abbreviation Call := (@method_call uuid_t).

Lemma run_calls_snoc (cs : list Call) (c : Call) (w : World') :
  run_calls svm_train dist on_none (cs ++ [c]) w
  = run_call svm_train dist on_none (run_calls svm_train dist on_none cs w) c.
Proof. unfold run_calls. rewrite fold_left_app. reflexivity. Qed.

Lemma last_indexed_snoc (cs : list Call) (c : Call) :
  last_indexed (cs ++ [c])
  = match c with
    | CallBuildIndex descriptors => Some descriptors
    | _ => last_indexed cs
    end.
Proof.
  unfold last_indexed. rewrite fold_left_app. destruct c; reflexivity.
Qed.

Lemma rank_no_positives_world (neg : list Descr) (w : World') :
  snd (rank svm_train dist on_none [] neg w) = w.
Proof.
  unfold rank. unfold bind at 1. rewrite rank_probs_cases. reflexivity.
Qed.

(** The instance a sequence of calls leaves: the one the last
    [build_index] built, or the one the sequence started from. *)
Lemma run_calls_self (cs : list Call) (w : World') :
  self (run_calls svm_train dist on_none cs w)
  = match last_indexed cs with
    | None => self w
    | Some ds => built ds (self w)
    end.
Proof.
  induction cs as [|c cs IH] using rev_ind; [reflexivity|].
  rewrite run_calls_snoc, last_indexed_snoc.
  destruct c as [ds | pos neg |]; cbn [run_call].
  - rewrite build_index_run. cbn [snd self]. unfold built. f_equal.
    rewrite IH. destruct (last_indexed cs); reflexivity.
  - rewrite rank_self. exact IH.
  - unfold count. run_monad. exact IH.
Qed.

Lemma run_calls_trainer (cs : list Call) (w : World') :
  length (svm_train_calls (run_calls svm_train dist on_none cs w))
  = length (svm_train_calls w) + length (filter ranks_with_positives cs).
Proof.
  induction cs as [|c cs IH] using rev_ind; [cbn; lia|].
  rewrite run_calls_snoc, filter_app, length_app.
  destruct c as [ds | [|p pos'] neg |]; cbn [run_call filter
    ranks_with_positives length].
  - rewrite build_index_run. cbn [snd svm_train_calls]. lia.
  - rewrite rank_no_positives_world. lia.
  - rewrite (rank_calls svm_train dist on_none (p :: pos') neg _
               (dict_set SVM_TRAIN_PARAMS "-w1"%string
                  (PFloat (spec_w1 (length (p :: pos')) (length neg))))).
    + rewrite length_app. cbn [length]. lia.
    + unfold _gen_svm_parameter_string.
      rewrite gen_w1_weight_spec by (cbn; lia). reflexivity.
  - unfold count. run_monad. lia.
Qed.

(** X11.  After any sequence of [build_index], [rank] and [count] calls on
    a fresh instance, failed calls included, the instance is the one its
    last [build_index] built, or the initial one when there was none:
    [count()] is the length of the last indexed sequence, the cache is that
    sequence, the rows of the matrix are its vectors in order, and
    [_dist_kernel] is still [None]. *)
Theorem session_instance (cs : list Call) :
  self (run_calls svm_train dist on_none cs new_world)
  = match last_indexed cs with
    | None => init
    | Some ds => built ds init
    end /\
  fst (count (run_calls svm_train dist on_none cs new_world))
  = Ok (match last_indexed cs with
        | None => 0
        | Some ds => length ds
        end) /\
  (forall rows,
     _descr_matrix (self (run_calls svm_train dist on_none cs new_world))
     = Some rows ->
     rows = map vector
              (_descr_cache
                 (self (run_calls svm_train dist on_none cs new_world)))) /\
  _dist_kernel (self (run_calls svm_train dist on_none cs new_world)) = None.
Proof.
  pose proof (run_calls_self cs new_world) as Hs. cbn [self new_world] in Hs.
  split; [exact Hs|].
  unfold count. run_monad. rewrite Hs.
  destruct (last_indexed cs) as [ds|]; cbn.
  - repeat split. intros rows [= <-]. reflexivity.
  - repeat split. intros rows Hrows. discriminate Hrows.
Qed.

(** X12.  Over any sequence of calls, the trainer is invoked once for
    every [rank] call that has a positive exemplar, whether that call
    returns or raises, and never by [build_index], [count] or a [rank]
    call without positive exemplar. *)
Theorem session_trainer_calls (cs : list Call) :
  length (svm_train_calls (run_calls svm_train dist on_none cs new_world))
  = length (filter ranks_with_positives cs).
Proof. rewrite run_calls_trainer. reflexivity. Qed.

End SessionFacts.

(** ** The further properties at work on the small index *)

Section ReverseLookupRuns.
Context {uuid_t : Type} `{Hashable uuid_t}.

(** The last position that holds a vector is what the reverse lookup
    returns for it. *)
Lemma reverse_lookup_get_last (ds : list (@DescriptorElement uuid_t))
    (j : nat) (dj : @DescriptorElement uuid_t) :
  nth_error ds j = Some dj ->
  (forall k dk, j < k -> nth_error ds k = Some dk ->
                vector dk <> vector dj) ->
  dict_get (reverse_lookup ds) (vector dj) = Some j.
Proof.
  intros Hj Hlast. unfold reverse_lookup.
  apply dict_of_pairs_nth with (i := j).
  - rewrite nth_error_map, (nth_error_enumerate ds j dj Hj). reflexivity.
  - intros k [v n] Hk Hnth Hv. cbn in Hv. subst v.
    apply reverse_lookup_pairs_nth in Hnth.
    destruct Hnth as [_ (d & Hd & Hvd)].
    exact (Hlast k d Hk Hd Hvd).
Qed.

End ReverseLookupRuns.

Lemma reverse_lookup_points_at_rows_witness :
  dict_get
    (_descr2index
       (self (snd (build_index [Example.d_a; Example.d_b] Example.fresh))))
    (vector Example.d_b) = Some 1 /\
  fst (count (snd (build_index [Example.d_a; Example.d_b] Example.fresh)))
  = Ok 2 /\
  1 < 2 /\
  (exists rows,
      _descr_matrix
        (self (snd (build_index [Example.d_a; Example.d_b] Example.fresh)))
      = Some rows /\
      nth_error rows 1 = Some (vector Example.d_b)) /\
  exists d,
    nth_error
      (_descr_cache
         (self (snd (build_index [Example.d_a; Example.d_b] Example.fresh))))
      1 = Some d /\
    vector d = vector Example.d_b.
Proof.
  assert (Hget : dict_get
                   (_descr2index
                      (self (snd (build_index [Example.d_a; Example.d_b]
                                    Example.fresh))))
                   (vector Example.d_b) = Some 1).
  { apply (reverse_lookup_get_last [Example.d_a; Example.d_b] 1 Example.d_b).
    - reflexivity.
    - intros k dk Hk Hnth. destruct k as [|[|[|k]]]; try lia;
        discriminate Hnth. }
  split; [exact Hget|].
  exact (reverse_lookup_points_at_rows [Example.d_a; Example.d_b]
           Example.fresh (vector Example.d_b) 1 Hget).
Defined.

Lemma reverse_lookup_inverts_rows_witness :
  NoDup (map vector [Example.d_a; Example.d_b]) /\
  (forall i d, nth_error [Example.d_a; Example.d_b] i = Some d ->
     dict_get
       (_descr2index
          (self (snd (build_index [Example.d_a; Example.d_b] Example.fresh))))
       (vector d) = Some i) /\
  fst (count (snd (build_index [Example.d_a; Example.d_b] Example.fresh)))
  = Ok (dict_len
          (_descr2index
             (self (snd (build_index [Example.d_a; Example.d_b]
                           Example.fresh))))).
Proof.
  assert (ND : NoDup (map vector [Example.d_a; Example.d_b])).
  { cbn. constructor; [|constructor; [intros [] | constructor]].
    intros [E|[]]. injection E as E0 _. lra. }
  split; [exact ND|].
  exact (reverse_lookup_inverts_rows [Example.d_a; Example.d_b]
           Example.fresh ND).
Defined.

Lemma rank_trainer_failure_propagates_witness :
  exists params,
    _gen_svm_parameter_string 1 1 = Ok params /\
    Scenario.failing_train (spec_training_set [Example.d_a] [Example.d_b])
      params = Raise "TrainerFailure"%string /\
    rank Scenario.failing_train Example.histogram_intersection Example.on_none
      [Example.d_a] [Example.d_b] Example.index_ab
    = (Raise "TrainerFailure"%string,
       {| self := self Example.index_ab;
          svm_train_calls :=
            svm_train_calls Example.index_ab
            ++ [(spec_training_set [Example.d_a] [Example.d_b], params)] |}).
Proof.
  eexists.
  refine ((fun Hp =>
             conj Hp
               (conj eq_refl
                  (rank_trainer_failure_propagates Scenario.failing_train
                     Example.histogram_intersection Example.on_none
                     [Example.d_a] [Example.d_b] Example.index_ab _ _
                     Hp eq_refl))) eq_refl).
Defined.

Lemma rank_reads_exemplar_vectors_only_witness :
  map vector [Example.d_a] = map vector [Example.d_c] /\
  Example.rank [Example.d_a] [Example.d_b] Example.index_ab
  = Example.rank [Example.d_c] [Example.d_b] Example.index_ab.
Proof.
  split; [reflexivity|].
  exact (rank_reads_exemplar_vectors_only Example.train
           Example.histogram_intersection Example.on_none
           [Example.d_a] [Example.d_b] [Example.d_c] [Example.d_b]
           Example.index_ab eq_refl eq_refl).
Defined.

Lemma rank_equal_vectors_equal_scores_witness :
  exists d w',
    Example.rank [Example.d_a] [Example.d_b] Scenario.index_acb = (Ok d, w') /\
    NoDup (map uuid [Example.d_a; Example.d_c; Example.d_b]) /\
    vector Example.d_a = vector Example.d_c /\
    exists p, dict_get d (uuid Example.d_a) = Some p /\
              dict_get d (uuid Example.d_c) = Some p.
Proof.
  assert (ND : NoDup (map uuid [Example.d_a; Example.d_c; Example.d_b])).
  { cbn. repeat constructor; cbn; intuition discriminate. }
  eexists. eexists.
  refine ((fun Hr =>
             conj Hr
               (conj ND
                  (conj eq_refl
                     (rank_equal_vectors_equal_scores Example.train
                        Example.histogram_intersection Example.on_none
                        [Example.d_a; Example.d_c; Example.d_b]
                        [Example.d_a] [Example.d_b]
                        Example.fresh Scenario.index_acb _ _
                        Example.d_a Example.d_c
                        eq_refl Hr ND
                        (or_introl eq_refl)
                        (or_intror (or_introl eq_refl))
                        eq_refl)))) _).
  reflexivity.
Defined.

Lemma rank_before_build_returns_nothing_witness :
  self Example.fresh = init /\
  exists d w',
    rank Example.train Example.histogram_intersection
      Scenario.empty_matrix_of_none [Example.d_a] [Example.d_b] Example.fresh
    = (Ok d, w') /\
    d = dict_empty /\ fst (count Example.fresh) = Ok 0.
Proof.
  split; [reflexivity|]. eexists. eexists.
  refine ((fun Hr =>
             conj Hr
               (rank_before_build_returns_nothing Example.train
                  Example.histogram_intersection
                  Scenario.empty_matrix_of_none
                  [Example.d_a] [Example.d_b] Example.fresh _ _
                  eq_refl Hr)) _).
  reflexivity.
Defined.

(** ** The claims that fail, at their inputs *)

(** C5, the claim as stated fails: in binary64 the Platt scaling of the
    finite margins 800 and -800, with [rho] 0, [probA] 1 and [probB] 0, is
    exactly 0.0 and exactly 1.0, neither strictly between 0 and 1. *)
Lemma platt_scaling_binary64_saturates :
  platt_scaling_binary64 Scenario.exp_core [800; -800]%float 0 1 0
  = [0; 1]%float /\
  (0 <? 0)%float = false /\
  (1 <? 1)%float = false.
Proof. repeat split; vm_compute; reflexivity. Qed.

(** C7, the claim as stated fails: with the same vector at positions 0, 1
    and 2, the reverse lookup maps the vector of the positions 0 and 1 to
    2, not to 1. *)
Lemma reverse_lookup_third_duplicate :
  vector Example.d_a = vector Example.d_c /\
  dict_get
    (_descr2index
       (self (snd (build_index [Example.d_a; Example.d_c; Scenario.d_e]
                     Example.fresh))))
    (vector Example.d_c) = Some 2 /\
  dict_get
    (_descr2index
       (self (snd (build_index [Example.d_a; Example.d_c; Scenario.d_e]
                     Example.fresh))))
    (vector Example.d_c) <> Some 1.
Proof.
  assert (Hget : dict_get
                   (_descr2index
                      (self (snd (build_index
                                    [Example.d_a; Example.d_c; Scenario.d_e]
                                    Example.fresh))))
                   (vector Example.d_c) = Some 2).
  { rewrite build_index_run. cbn [snd self built _descr2index].
    apply (reverse_lookup_get_last
             [Example.d_a; Example.d_c; Scenario.d_e] 2 Scenario.d_e).
    - reflexivity.
    - intros k dk Hk Hnth. destruct k as [|[|[|[|k]]]]; try lia;
        discriminate Hnth. }
  split; [reflexivity|]. split; [exact Hget|].
  rewrite Hget. discriminate.
Qed.
